(** * Employee verification platform: enrollment, verification and the
      vector-index adapter

    A shallow embedding of [employees/services/face_service.py],
    [employees/services/chroma_service.py] and [employees/views.py].

    - Python [str] values are lists of Unicode code points.
    - Python [float] values are IEEE 754 binary64 numbers ([PrimFloat]).
    - Dictionaries are finite maps ([gmap]).
    - A service or view call is a function from the state of the world (the
      Employee table, the Chroma collection, the file storage, the flashed
      messages, the error log) to an outcome and a new state; an outcome is
      a value or a raised exception.
    - What the external collaborators (database, DeepFace, scikit-learn,
      ChromaDB, file storage) do on one call, and whether they raise, is
      read from an environment record, and so is the float formatting of
      the Python runtime.
    - Of the log, the records of level error are kept. *)

From Stdlib Require Import PrimFloat SpecFloat FloatOps FloatAxioms.
From Stdlib Require Import ZArith NArith Ascii String Decimal.
From stdpp Require Import gmap strings list.

Local Open Scope N_scope.
Set Warnings "-inexact-float,-clear-no-such-hyp".

(* ===================================================================== *)
(** ** Python strings *)
(* ===================================================================== *)

Module PyStr.

(** A [str] is its sequence of code points. *)
Abbreviation pystr := (list N).

(** A literal of the source, given by its characters. *)
Definition py (s : string) : pystr :=
  N_of_ascii <$> list_ascii_of_string s.
Global Arguments py : simpl never.

Definition NUL : N := 0.
Definition LF : N := 10.
Definition CR : N := 13.
Definition SPACE : N := 32.

(** [str.isspace] on one character: the characters [str.strip()] removes
    when it is called without an argument. *)
Definition isspace (c : N) : bool :=
  ((9 <=? c) && (c <=? 13)) || ((28 <=? c) && (c <=? 32))
  || (c =? 133) || (c =? 160) || (c =? 5760)
  || ((8192 <=? c) && (c <=? 8202))
  || (c =? 8232) || (c =? 8233) || (c =? 8239) || (c =? 8287)
  || (c =? 12288).

Fixpoint lstrip (s : pystr) : pystr :=
  match s with
  | [] => []
  | c :: s' => if isspace c then lstrip s' else s
  end.

Definition rstrip (s : pystr) : pystr := reverse (lstrip (reverse s)).

(** [s.strip()] *)
Definition strip (s : pystr) : pystr := rstrip (lstrip s).

(** [s.replace(old, new)] for a pattern [old] of one character: every
    occurrence is replaced. *)
Fixpoint replace1 (old : N) (new : pystr) (s : pystr) : pystr :=
  match s with
  | [] => []
  | c :: s' =>
      (if c =? old then new else [c]) ++ replace1 old new s'
  end.

(** The digits of a decimal numeral, most significant first. *)
Fixpoint uint_digits (u : Decimal.uint) : pystr :=
  match u with
  | Nil => []
  | D0 u => 48 :: uint_digits u
  | D1 u => 49 :: uint_digits u
  | D2 u => 50 :: uint_digits u
  | D3 u => 51 :: uint_digits u
  | D4 u => 52 :: uint_digits u
  | D5 u => 53 :: uint_digits u
  | D6 u => 54 :: uint_digits u
  | D7 u => 55 :: uint_digits u
  | D8 u => 56 :: uint_digits u
  | D9 u => 57 :: uint_digits u
  end.

(** [str(z)] for an [int]. *)
Definition str_int (z : Z) : pystr :=
  match Z.to_int z with
  | Decimal.Pos u => uint_digits u
  | Decimal.Neg u => 45 :: uint_digits u
  end.

(** [str(b)] for a [bool]. *)
Definition str_bool (b : bool) : pystr :=
  if b then py "True" else py "False".

(** The characters [repr] of a float is made of: the digits, the point,
    the signs and the exponent mark of a numeral, and the letters of [inf]
    and [nan]. *)
Inductive float_char :=
| F0 | F1 | F2 | F3 | F4 | F5 | F6 | F7 | F8 | F9
| FPoint | FMinus | FPlus | FExp | FI | FN | FF | FA.

Definition float_char_code (c : float_char) : N :=
  match c with
  | F0 => 48 | F1 => 49 | F2 => 50 | F3 => 51 | F4 => 52
  | F5 => 53 | F6 => 54 | F7 => 55 | F8 => 56 | F9 => 57
  | FPoint => 46 | FMinus => 45 | FPlus => 43 | FExp => 101
  | FI => 105 | FN => 110 | FF => 102 | FA => 97
  end.

Definition float_char_of_code (c : N) : option float_char :=
  match c with
  | 48 => Some F0 | 49 => Some F1 | 50 => Some F2 | 51 => Some F3
  | 52 => Some F4 | 53 => Some F5 | 54 => Some F6 | 55 => Some F7
  | 56 => Some F8 | 57 => Some F9
  | 46 => Some FPoint | 45 => Some FMinus | 43 => Some FPlus
  | 101 => Some FExp
  | 105 => Some FI | 110 => Some FN | 102 => Some FF | 97 => Some FA
  | _ => None
  end.

(** The text of a float, given by its characters. *)
Definition float_text (s : string) : list float_char :=
  omap float_char_of_code (py s).

(** No NUL, CR or LF. *)
Definition ctrl_free (s : pystr) : Prop :=
  (NUL ∉ s) ∧ (CR ∉ s) ∧ (LF ∉ s).

Definition ctrl_freeb (s : pystr) : bool :=
  forallb (λ c, negb ((c =? NUL) || (c =? CR) || (c =? LF))) s.

End PyStr.
Export PyStr.

(* ===================================================================== *)
(** ** Python values and exceptions *)
(* ===================================================================== *)

(** The values a metadata dictionary ([Dict[str, Any]]) can hold.  An object
    of any other type is given by the string its [__str__] returns. *)
Inductive pyvalue :=
| PStr (s : pystr)
| PBool (b : bool)
| PInt (z : Z)
| PFloat (f : float)
| PObj (repr : pystr).

(** [isinstance(value, str)] *)
Definition isinstance_str (v : pyvalue) : bool :=
  match v with PStr _ => true | _ => false end.

(** [isinstance(value, (int, float))]; [bool] is a subclass of [int]. *)
Definition isinstance_num (v : pyvalue) : bool :=
  match v with PBool _ | PInt _ | PFloat _ => true | _ => false end.

Inductive exn_class :=
| FaceRecognitionError
| ValueError
| DoesNotExist
| OtherException.

Global Instance exn_class_eq_dec : EqDecision exn_class.
Proof. solve_decision. Defined.

(** A raised exception: its class and [str(e)]. *)
Record exn := Exn { exn_class_of : exn_class; exn_str : pystr }.

Inductive result (A : Type) :=
| Ok (a : A)
| Raise (e : exn).
Arguments Ok {A} a.
Arguments Raise {A} e.


(* ===================================================================== *)
(** ** The state of the world and the environment of a call *)
(* ===================================================================== *)

(** [employees/models.py]: a row of the Employee table.  The primary key
    [uuid] is kept in its string form [str(employee.uuid)], which is also
    the id of the embedding in the Chroma collection. *)
Record Employee := mkEmployee {
  uuid : pystr;
  full_name : pystr;
  phone : pystr;
  email : pystr;
  employer_name : pystr;
  position : pystr;
  reputation_score : float;
  notes : option pystr;
  image_path : pystr
}.

(** One entry of the Chroma collection: the embedding and its metadata. *)
Abbreviation index_entry := (list float * gmap pystr pystr)%type.

Inductive log_record :=
| LogError (msg : pystr)
| LogTraceback (e : exn).

Inductive message_level := MsgSuccess | MsgError.

Record world := World {
  employees : gmap pystr Employee;          (* the Employee table *)
  collection : gmap pystr index_entry;      (* the persistent collection *)
  chroma_client : bool;                     (* [ChromaService._client] is set *)
  chroma_collection : bool;                 (* [ChromaService._collection] is set *)
  files : gset pystr;                       (* [default_storage] *)
  flashed : list (message_level * pystr);   (* [django.contrib.messages] *)
  error_log : list log_record;              (* [logger.error] records *)
  db_deletes : nat;                         (* [employee.delete()] calls so far *)
  storage_deletes : nat                     (* [default_storage.delete] calls so far *)
}.

Definition set_employees (f : gmap pystr Employee → gmap pystr Employee)
    (w : world) : world :=
  World (f (employees w)) (collection w) (chroma_client w)
        (chroma_collection w) (files w) (flashed w) (error_log w)
        (db_deletes w) (storage_deletes w).

Definition set_collection
    (f : gmap pystr index_entry → gmap pystr index_entry) (w : world) : world :=
  World (employees w) (f (collection w)) (chroma_client w)
        (chroma_collection w) (files w) (flashed w) (error_log w)
        (db_deletes w) (storage_deletes w).

Definition set_handles (client coll : bool) (w : world) : world :=
  World (employees w) (collection w) client coll (files w) (flashed w)
        (error_log w) (db_deletes w) (storage_deletes w).

Definition set_files (f : gset pystr → gset pystr) (w : world) : world :=
  World (employees w) (collection w) (chroma_client w)
        (chroma_collection w) (f (files w)) (flashed w) (error_log w)
        (db_deletes w) (storage_deletes w).

Definition add_flashed (m : message_level * pystr) (w : world) : world :=
  World (employees w) (collection w) (chroma_client w)
        (chroma_collection w) (files w) (flashed w ++ [m]) (error_log w)
        (db_deletes w) (storage_deletes w).

Definition add_log (r : log_record) (w : world) : world :=
  World (employees w) (collection w) (chroma_client w)
        (chroma_collection w) (files w) (flashed w) (error_log w ++ [r])
        (db_deletes w) (storage_deletes w).

Definition count_delete (w : world) : world :=
  World (employees w) (collection w) (chroma_client w)
        (chroma_collection w) (files w) (flashed w) (error_log w)
        (S (db_deletes w)) (storage_deletes w).

Definition count_storage_delete (w : world) : world :=
  World (employees w) (collection w) (chroma_client w)
        (chroma_collection w) (files w) (flashed w) (error_log w)
        (db_deletes w) (S (storage_deletes w)).

(** One face found by [DeepFace.represent]. *)
Record face := Face { face_embedding : list float }.

(** What [collection.query] returns. *)
Record query_results := QueryResults {
  ids : list (list pystr);
  distances : list (list float);
  metadatas : option (list (list (gmap pystr pystr)))
}.

(** What [collection.add] does with an id that is already in the
    collection: ChromaDB releases either raise or log a warning and skip the
    record; none of them replaces the stored entry (that is
    [collection.update] and [collection.upsert]). *)
Inductive add_dup_policy :=
| DupRaises (e : exn)
| DupIgnored.

(** The settings and the behaviour of the collaborators during one call. *)
Record env := Env {
  (* config/settings.py *)
  SIMILARITY_THRESHOLD : float;
  MEDIA_ROOT : pystr;
  (* the Python runtime *)
  float_repr : float → list float_char; (* the characters of [str(x)] for a float *)
  format_1f : float → pystr;            (* [format(x, '.1f')] *)
  (* scikit-learn: [normalize(v.reshape(1, -1))[0]], which raises on a
     vector that is empty or holds a NaN or an infinity *)
  normalize : list float → result (list float);
  (* the database *)
  uuid4 : pystr;                        (* the key given to the next row *)
  db_save_fault : option exn;           (* the INSERT of [form.save()] raises *)
  db_delete_fault : nat → option exn;   (* the n-th [employee.delete()] raises *)
  (* the file system and DeepFace *)
  path_exists : pystr → bool;
  represent : pystr → result (list face);
  (* ChromaDB *)
  client_fault : option exn;            (* [PersistentClient(...)] raises *)
  create_collection_fault : option exn; (* get and create both raise *)
  add_dup : add_dup_policy;
  add_fault : option exn;               (* [collection.add] raises *)
  query : list float → result query_results;
  (* default_storage *)
  storage_save : pystr → result pystr;  (* the name the file is stored under *)
  storage_delete_fault : nat → option exn (* the n-th [delete] raises *)
}.

(** [str(x)] for a float. *)
Definition float_str (E : env) (x : float) : pystr :=
  float_char_code <$> float_repr E x.

(** What [collection.update] does with the metadata of a stored id: the
    given keys are written over the stored ones, and the other stored keys
    are kept or dropped. *)
Inductive update_metadata_policy :=
| MetadataMerged
| MetadataReplaced.

(** What [collection.update] does with an id that is not stored: it raises,
    or logs and skips the record; it stores nothing. *)
Inductive update_missing_policy :=
| MissingRaises (e : exn)
| MissingIgnored.

(** The settings and the collaborators of the operations that enrollment
    and verification do not use. *)
Record env_ext := EnvExt {
  (* config/settings.py *)
  MAX_UPLOAD_SIZE : Z;
  (* the Python runtime *)
  int_truediv : Z → Z → float;          (* [a / b] on two ints *)
  (* DeepFace *)
  extract_faces : pystr → result nat;   (* how many faces [extract_faces] returns *)
  (* ChromaDB *)
  delete_fault : option exn;            (* [collection.delete] raises *)
  update_fault : option exn;            (* [collection.update] raises *)
  update_metadata : update_metadata_policy;
  update_missing : update_missing_policy;
  count_fault : option exn;             (* [collection.count] raises *)
  (* the database *)
  db_count_fault : option exn           (* [Employee.objects.count()] raises *)
}.

(** [settings.CHROMA_COLLECTION_NAME] *)
Definition CHROMA_COLLECTION_NAME : pystr := py "employee_faces".

(* ===================================================================== *)
(** ** Calls: state passing with exceptions *)
(* ===================================================================== *)

Definition M (A : Type) : Type := world → result A * world.

Global Instance M_ret : MRet M := λ A a w, (Ok a, w).

Global Instance M_bind : MBind M := λ A B k m w,
  match m w with
  | (Ok a, w') => k a w'
  | (Raise e, w') => (Raise e, w')
  end.

Definition raise {A} (e : exn) : M A := λ w, (Raise e, w).

Definition lift {A} (r : result A) : M A := λ w, (r, w).

(** [try: body / except Exception as e: handler e] *)
Definition try_except {A} (body : M A) (handler : exn → M A) : M A := λ w,
  match body w with
  | (Ok a, w') => (Ok a, w')
  | (Raise e, w') => handler e w'
  end.

(** [try: body / finally: cleanup] *)
Definition try_finally {A} (body : M A) (cleanup : M ()) : M A := λ w,
  match body w with
  | (r, w') =>
      match cleanup w' with
      | (Ok _, w'') => (r, w'')
      | (Raise e, w'') => (Raise e, w'')
      end
  end.

Definition modify (f : world → world) : M () := λ w, (Ok (), f w).

Definition logger_error (msg : pystr) : M () := modify (add_log (LogError msg)).

Definition messages_success (msg : pystr) : M () :=
  modify (add_flashed (MsgSuccess, msg)).

Definition messages_error (msg : pystr) : M () :=
  modify (add_flashed (MsgError, msg)).

(** [posixpath.join(a, b)] *)
Definition os_path_join (a b : pystr) : pystr :=
  match b with
  | 47 :: _ => b
  | _ => match last a with
         | None | Some 47 => a ++ b
         | Some _ => a ++ 47 :: b
         end
  end.

(* ===================================================================== *)
(** ** employees/models.py *)
(* ===================================================================== *)

Module Models.

(** [Employee.__str__] *)
Definition __str__ (self : Employee) : pystr :=
  full_name self ++ py " - " ++ employer_name self.

(** [Employee.get_reputation_display] *)
Definition get_reputation_display (self : Employee) : pystr :=
  if (8 <=? reputation_score self)%float then py "Excellent"
  else if (6 <=? reputation_score self)%float then py "Good"
  else if (4 <=? reputation_score self)%float then py "Average"
  else py "Poor".

(** [Employee.get_reputation_color] *)
Definition get_reputation_color (self : Employee) : pystr :=
  if (8 <=? reputation_score self)%float then py "success"
  else if (6 <=? reputation_score self)%float then py "info"
  else if (4 <=? reputation_score self)%float then py "warning"
  else py "danger".

End Models.

(* ===================================================================== *)
(** ** employees/services/face_service.py *)
(* ===================================================================== *)

Module FaceService.

(** [FaceService._get_validation_message(face_count)] *)
Definition _get_validation_message (face_count : nat) : pystr :=
  if bool_decide (face_count = 0%nat) then
    py "No face detected. Please provide a clear face photo."
  else if bool_decide (face_count = 1%nat) then
    py "Image is valid."
  else
    py "Multiple faces detected (" ++ str_int (Z.of_nat face_count)
    ++ py "). Please provide an image with a single face.".

Section WithEnv.
Variable E : env.

Definition face_error (msg : pystr) : exn := Exn FaceRecognitionError msg.

(** The dictionary [validate_image] returns. *)
Record validation := Validation {
  valid : bool;
  face_count : nat;
  message : pystr
}.

(** [FaceService.extract_embedding(image_path)] *)
Definition extract_embedding (image_path : pystr) : M (list float) :=
  if negb (path_exists E image_path) then
    raise (face_error (py "Image file not found: " ++ image_path))
  else
    try_except
      (embeddings ← lift (represent E image_path);
       if bool_decide (length embeddings = 0%nat) then
         raise (face_error (py "No face detected in the image"))
       else if bool_decide (1 < length embeddings)%nat then
         raise (face_error
           (py "Multiple faces detected ("
            ++ str_int (Z.of_nat (length embeddings)) ++ py "). "
            ++ py "Please provide an image with a single face."))
       else
         match embeddings with
         | f :: _ => lift (normalize E (face_embedding f))
         | [] => raise (Exn OtherException (py "list index out of range"))
         end)
      (λ e,
         if bool_decide (exn_class_of e = ValueError) then
           logger_error (py "Face detection failed: " ++ exn_str e);;
           raise (face_error
             (py "No face detected in the image. Please provide a clear face photo."))
         else
           logger_error (py "Error extracting embedding: " ++ exn_str e);;
           raise (face_error (py "Failed to process image: " ++ exn_str e))).

(** [FaceService.embedding_to_list(embedding)] *)
Definition embedding_to_list (embedding : list float) : list float := embedding.

(** [FaceService.list_to_embedding(embedding_list)] *)
Definition list_to_embedding (embedding_list : list float) : list float :=
  embedding_list.

Variable X : env_ext.

(** [FaceService.validate_image(image_path)] *)
Definition validate_image (image_path : pystr) : M validation :=
  try_except
    (faces ← lift (extract_faces X image_path);
     let face_count := faces in
     mret (Validation (bool_decide (face_count = 1%nat)) face_count
             (_get_validation_message face_count)))
    (λ e,
       mret (Validation false 0 (py "Face detection failed: " ++ exn_str e))).

End WithEnv.
End FaceService.

(* ===================================================================== *)
(** ** employees/services/chroma_service.py *)
(* ===================================================================== *)

Module ChromaService.
Section WithEnv.
Variable E : env.

(** [ChromaService._get_client()] *)
Definition _get_client : M () := λ w,
  if chroma_client w then (Ok (), w)
  else
    match client_fault E with
    | Some e =>
        (logger_error (py "Error initializing ChromaDB: " ++ exn_str e);;
         raise e) w
    | None => (Ok (), set_handles true (chroma_collection w) w)
    end.

(** [ChromaService._get_collection()]: the handle is the collection of the
    world; a collection created here is empty, as the stored one is then. *)
Definition _get_collection : M () := λ w,
  if chroma_collection w then (Ok (), w)
  else
    try_except
      (_get_client;;
       match create_collection_fault E with
       | Some e => raise e
       | None => modify (λ w', set_handles (chroma_client w') true w')
       end)
      (λ e, logger_error (py "Error getting collection: " ++ exn_str e);;
            raise e) w.

(** [str(value)] *)
Definition py_str (value : pyvalue) : pystr :=
  match value with
  | PStr s => s
  | PBool b => str_bool b
  | PInt z => str_int z
  | PFloat f => float_str E f
  | PObj repr => repr
  end.

(** The body of the metadata loop for one [value]. *)
Definition clean_value (value : pyvalue) : pystr :=
  if isinstance_str value then
    strip (replace1 LF [SPACE] (replace1 CR [] (replace1 NUL [] (py_str value))))
  else if isinstance_num value then
    py_str value
  else
    py_str value.

(** [clean_metadata = {}; for key, value in metadata.items(): ...] *)
Definition clean_metadata (metadata : gmap pystr pyvalue) : gmap pystr pystr :=
  map_fold (λ key value clean_metadata,
              <[key := clean_value value]> clean_metadata) ∅ metadata.

(** [collection.add(ids=[doc_id], embeddings=[embedding],
    metadatas=[clean_metadata])] *)
Definition collection_add (doc_id : pystr) (entry : index_entry) : M () := λ w,
  match add_fault E with
  | Some e => (Raise e, w)
  | None =>
      match collection w !! doc_id with
      | Some _ =>
          match add_dup E with
          | DupRaises e => (Raise e, w)
          | DupIgnored => (Ok (), w)
          end
      | None => (Ok (), set_collection (insert doc_id entry) w)
      end
  end.

(** [ChromaService.add_employee_embedding(employee_uuid, embedding, metadata)] *)
Definition add_employee_embedding (employee_uuid : pystr)
    (embedding : list float) (metadata : gmap pystr pyvalue) : M bool :=
  try_except
    (_get_collection;;
     let doc_id := employee_uuid in
     let clean_metadata := clean_metadata metadata in
     collection_add doc_id (embedding, clean_metadata);;
     mret true)
    (λ e,
       logger_error (py "Error adding embedding to ChromaDB: " ++ exn_str e);;
       modify (add_log (LogTraceback e));;
       mret false).

(** The dictionary [search_embedding] returns. *)
Record match_result := MatchResult {
  mr_id : pystr;
  mr_distance : float;
  mr_similarity : float;
  mr_metadata : gmap pystr pystr
}.

Definition index_error : exn :=
  Exn OtherException (py "list index out of range").

(** [xs[0][0]] *)
Definition first_of_first {A} (xs : list (list A)) : M A :=
  match xs with
  | (x :: _) :: _ => mret x
  | _ => raise index_error
  end.

(** [collection.query(query_embeddings=[query_embedding], n_results=n)] *)
Definition collection_query (query_embedding : list float) : M query_results :=
  lift (query E query_embedding).

(** [ChromaService.search_embedding(query_embedding)] *)
Definition search_embedding (query_embedding : list float)
    : M (option match_result) :=
  try_except
    (_get_collection;;
     results ← collection_query query_embedding;
     match ids results with
     | [] | [] :: _ => mret None
     | _ =>
         employee_id ← first_of_first (ids results);
         distance ← first_of_first (distances results);
         metadata ← match metadatas results with
                    | None | Some [] => mret ∅
                    | Some ms => first_of_first ms
                    end;
         let similarity := (1 - distance / 2)%float in
         mret (Some (MatchResult employee_id distance similarity metadata))
     end)
    (λ e, logger_error (py "Error searching ChromaDB: " ++ exn_str e);;
          mret None).

Variable X : env_ext.

(** [collection.delete(ids=[doc_id])]; an id that is not stored is not an
    error. *)
Definition collection_delete (doc_id : pystr) : M () := λ w,
  match delete_fault X with
  | Some e => (Raise e, w)
  | None => (Ok (), set_collection (delete doc_id) w)
  end.

(** [ChromaService.delete_employee_embedding(employee_uuid)] *)
Definition delete_employee_embedding (employee_uuid : pystr) : M bool :=
  try_except
    (_get_collection;;
     let doc_id := employee_uuid in
     collection_delete doc_id;;
     mret true)
    (λ e,
       logger_error (py "Error deleting embedding from ChromaDB: " ++ exn_str e);;
       mret false).

(** [collection.update(ids=[doc_id], embeddings=[embedding],
    metadatas=[clean_metadata])] *)
Definition collection_update (doc_id : pystr) (entry : index_entry) : M () :=
  λ w,
  match update_fault X with
  | Some e => (Raise e, w)
  | None =>
      match collection w !! doc_id with
      | Some old =>
          let metadata :=
            match update_metadata X with
            | MetadataMerged => entry.2 ∪ old.2
            | MetadataReplaced => entry.2
            end in
          (Ok (), set_collection (insert doc_id (entry.1, metadata)) w)
      | None =>
          match update_missing X with
          | MissingRaises e => (Raise e, w)
          | MissingIgnored => (Ok (), w)
          end
      end
  end.

(** [ChromaService.update_employee_embedding(employee_uuid, embedding,
    metadata)] *)
Definition update_employee_embedding (employee_uuid : pystr)
    (embedding : list float) (metadata : gmap pystr pyvalue) : M bool :=
  try_except
    (_get_collection;;
     let doc_id := employee_uuid in
     let clean_metadata :=
       map_fold (λ key value clean_metadata,
                   <[key := clean_value value]> clean_metadata) ∅ metadata in
     collection_update doc_id (embedding, clean_metadata);;
     mret true)
    (λ e,
       logger_error (py "Error updating embedding in ChromaDB: " ++ exn_str e);;
       mret false).

(** The dictionary [get_collection_stats] returns. *)
Record collection_stats := CollectionStats {
  stats_collection_name : pystr;
  total_embeddings : nat;
  stats_status : pystr;
  stats_error : option pystr
}.

(** [collection.count()] *)
Definition collection_count : M nat := λ w,
  match count_fault X with
  | Some e => (Raise e, w)
  | None => (Ok (size (collection w)), w)
  end.

(** [ChromaService.get_collection_stats()] *)
Definition get_collection_stats : M collection_stats :=
  try_except
    (_get_collection;;
     count ← collection_count;
     mret (CollectionStats CHROMA_COLLECTION_NAME count (py "healthy") None))
    (λ e,
       logger_error (py "Error getting collection stats: " ++ exn_str e);;
       mret (CollectionStats CHROMA_COLLECTION_NAME 0 (py "error")
               (Some (exn_str e)))).


End WithEnv.
End ChromaService.

(* ===================================================================== *)
(** ** employees/forms.py *)
(* ===================================================================== *)

(** An uploaded file, as the forms look at it. *)
Record uploaded_file := UploadedFile {
  file_name : pystr;
  file_size : Z;
  content_type : pystr
}.

(** What a [clean_<field>] method does: it returns the value or raises
    [ValidationError] with a message. *)
Inductive cleaned (A : Type) :=
| Cleaned (a : A)
| ValidationError (message : pystr).
Arguments Cleaned {A} a.
Arguments ValidationError {A} message.

Module Forms.
Section WithEnv.
Variable E : env.
Variable X : env_ext.

(** [f"Image file is too large. Maximum size is {max_size_mb}MB."] *)
Definition too_large_message : pystr :=
  let max_size_mb := int_truediv X (MAX_UPLOAD_SIZE X) (1024 * 1024) in
  py "Image file is too large. Maximum size is " ++ float_str E max_size_mb
  ++ py "MB.".

Definition allowed_types : list pystr :=
  [py "image/jpeg"; py "image/jpg"; py "image/png"; py "image/webp"].

(** [EmployeeForm.clean_image]; an uploaded file is false when it has no
    name. *)
Definition employee_clean_image (image : option uploaded_file)
    : cleaned uploaded_file :=
  match image with
  | None => ValidationError (py "Please upload an employee photo.")
  | Some image =>
      if bool_decide (file_name image = []) then
        ValidationError (py "Please upload an employee photo.")
      else if (MAX_UPLOAD_SIZE X <? file_size image)%Z then
        ValidationError too_large_message
      else if negb (bool_decide (content_type image ∈ allowed_types)) then
        ValidationError
          (py "Invalid image format. Please upload JPEG, PNG, or WebP.")
      else Cleaned image
  end.

(** [VerificationForm.clean_image] *)
Definition verification_clean_image (image : option uploaded_file)
    : cleaned uploaded_file :=
  match image with
  | None => ValidationError (py "Please upload a photo for verification.")
  | Some image =>
      if bool_decide (file_name image = []) then
        ValidationError (py "Please upload a photo for verification.")
      else if (MAX_UPLOAD_SIZE X <? file_size image)%Z then
        ValidationError too_large_message
      else if negb (bool_decide (content_type image ∈ allowed_types)) then
        ValidationError
          (py "Invalid image format. Please upload JPEG, PNG, or WebP.")
      else Cleaned image
  end.

End WithEnv.
End Forms.

(* ===================================================================== *)
(** ** employees/views.py *)
(* ===================================================================== *)

Inductive http_method := GET | POST.

(** The cleaned data of an [EmployeeForm]. *)
Record employee_form := EmployeeForm {
  form_full_name : pystr;
  form_phone : pystr;
  form_email : pystr;
  form_employer_name : pystr;
  form_position : pystr;
  form_reputation_score : float;
  form_notes : option pystr;
  form_image_name : pystr
}.

Record request := Request {
  method : http_method;
  form_is_valid : bool;          (* [form.is_valid()] *)
  cleaned_data : employee_form;  (* [EmployeeForm(request.POST, request.FILES)] *)
  upload_name : pystr            (* [request.FILES['image'].name] *)
}.

(** A template context: each key is present or absent. *)
Record context := Context {
  ctx_form : bool;
  ctx_title : option pystr;
  ctx_match_found : option bool;
  ctx_employee : option Employee;
  ctx_similarity : option float;
  ctx_similarity_percentage : option float;
  ctx_threshold : option float;
  ctx_confidence : option pystr;
  ctx_message : option pystr
}.

Inductive response :=
| Redirect (to : pystr)
| Render (template : pystr) (ctx : context).

Module Views.
Section WithEnv.
Variable E : env.

(** [try: x = first; rest x / except Exception as e: handler], where the
    handler asks whether [x] is bound (['x' in locals()]).  An exception
    raised by the handler leaves the statement. *)
Definition try_except_bound {A B} (first : M A) (rest : A → M B)
    (handler : option A → exn → M B) : M B := λ w,
  match first w with
  | (Raise e, w') => handler None e w'
  | (Ok x, w') => try_except (rest x) (handler (Some x)) w'
  end.

(** [default_storage.save(name, content)]: the storage chooses the name the
    file is stored under, or raises and stores nothing. *)
Definition default_storage_save (name : pystr) : M pystr :=
  stored ← lift (storage_save E name);
  modify (set_files (λ fs, {[stored]} ∪ fs));;
  mret stored.

(** [default_storage.delete(name)]: the file is removed, or the storage
    raises ([os.remove] fails with an [OSError] other than
    [FileNotFoundError]) and the file stays; a missing file is not an
    error. *)
Definition default_storage_delete (name : pystr) : M () := λ w,
  match storage_delete_fault E (storage_deletes w) with
  | Some e => (Raise e, count_storage_delete w)
  | None =>
      (Ok (), count_storage_delete (set_files (λ fs, fs ∖ {[name]}) w))
  end.

(** [default_storage.exists(name)]: [os.path.lexists] on the path of a name
    the storage has returned; it answers, and does not raise. *)
Definition default_storage_exists (name : pystr) : M bool := λ w,
  (Ok (bool_decide (name ∈ files w)), w).

(** [form.save()] of an [EmployeeForm].  The [image] field is an
    [ImageField(upload_to='employee_photos/')]: when the values of the row
    are prepared, the upload is written into [default_storage] and the field
    takes the name the storage returns; then the row is inserted.  Either
    step can raise, and a photo that was written stays. *)
Definition form_save (form : employee_form) : M Employee :=
  photo ← default_storage_save (py "employee_photos/" ++ form_image_name form);
  match db_save_fault E with
  | Some e => raise e
  | None =>
      let employee :=
        mkEmployee (uuid4 E) (form_full_name form) (form_phone form)
          (form_email form) (form_employer_name form) (form_position form)
          (form_reputation_score form) (form_notes form)
          (os_path_join (MEDIA_ROOT E) photo) in
      modify (set_employees (insert (uuid4 E) employee));;
      mret employee
  end.

(** [employee.delete()]: the row is removed, or the database raises and the
    row stays; the photo of the row is not removed from the storage. *)
Definition employee_delete (employee : Employee) : M () := λ w,
  match db_delete_fault E (db_deletes w) with
  | Some e => (Raise e, count_delete w)
  | None =>
      (Ok (), count_delete (set_employees (delete (uuid employee)) w))
  end.

(** [Employee.objects.get(uuid=id)] *)
Definition objects_get (id : pystr) : M Employee := λ w,
  match employees w !! id with
  | Some employee => (Ok employee, w)
  | None =>
      (Raise (Exn DoesNotExist (py "Employee matching query does not exist.")), w)
  end.

Definition form_context (title : pystr) : context :=
  Context true (Some title) None None None None None None None.

(** [if 'employee' in locals(): employee.delete()] *)
Definition delete_if_bound (employee : option Employee) : M () :=
  match employee with
  | Some employee => employee_delete employee
  | None => mret ()
  end.

(** The two [except] clauses of [add_employee]. *)
Definition add_employee_except (employee : option Employee) (e : exn)
    : M (option response) :=
  if bool_decide (exn_class_of e = FaceRecognitionError) then
    delete_if_bound employee;;
    messages_error (exn_str e);;
    mret None
  else
    delete_if_bound employee;;
    logger_error (py "Error adding employee: " ++ exn_str e);;
    messages_error (py "An unexpected error occurred: " ++ exn_str e);;
    mret None.

(** Lines 45-79 of [add_employee]: the [try] block after
    [employee = form.save()]. *)
Definition add_employee_saved (employee : Employee) : M (option response) :=
  let image_path := image_path employee in
  embedding ← FaceService.extract_embedding E image_path;
  let metadata : gmap pystr pyvalue :=
    <[py "full_name" := PStr (full_name employee)]>
    (<[py "employer" := PStr (employer_name employee)]>
    (<[py "reputation_score" := PFloat (reputation_score employee)]> ∅)) in
  let embedding_list := FaceService.embedding_to_list embedding in
  success ← ChromaService.add_employee_embedding E
              (uuid employee) embedding_list metadata;
  if success : bool then
    messages_success
      (py "Employee " ++ [34] ++ full_name employee ++ [34]
       ++ py " added successfully with facial recognition data.");;
    mret (Some (Redirect (py "home")))
  else
    employee_delete employee;;
    messages_error
      (py "Failed to store facial recognition data. Please try again.");;
    mret None.

(** [add_employee(request)]; [None] from the [try] statement means that no
    [return] was reached in it. *)
Definition add_employee (request : request) : M response :=
  returned ←
    match method request with
    | POST =>
        if form_is_valid request then
          try_except_bound
            (form_save (cleaned_data request))
            add_employee_saved
            add_employee_except
        else mret None
    | GET => mret None
    end;
  match returned with
  | Some resp => mret resp
  | None =>
      mret (Render (py "add_employee.html") (form_context (py "Add New Employee")))
  end.

(** Lines 138-187 of [verify_employee]: what the view does with the result
    of the search. *)
Definition verify_after_search
    (match_result : option ChromaService.match_result) : M (option response) :=
  match match_result with
  | Some mr =>
      let similarity := ChromaService.mr_similarity mr in
      let threshold := SIMILARITY_THRESHOLD E in
      if (threshold <=? similarity)%float then
        try_except
          (employee ← objects_get (ChromaService.mr_id mr);
           mret (Some (Render (py "result.html")
             (Context false None (Some true) (Some employee) (Some similarity)
                (Some (similarity * 100)%float) (Some threshold)
                (Some (if (0.8 <=? similarity)%float
                       then py "High" else py "Medium"))
                None))))
          (λ e,
             if bool_decide (exn_class_of e = DoesNotExist) then
               logger_error (py "Employee not found in database: "
                             ++ ChromaService.mr_id mr);;
               messages_error
                 (py "Match found in facial database but employee record not found.");;
               mret None
             else raise e)
      else
        mret (Some (Render (py "result.html")
          (Context false None (Some false) None (Some similarity)
             (Some (similarity * 100)%float) (Some threshold) None
             (Some (py "No confident match found. Closest match: "
                    ++ format_1f E (similarity * 100)%float
                    ++ py "% (threshold: "
                    ++ format_1f E (threshold * 100)%float ++ py "%)")))))
  | None =>
      mret (Some (Render (py "result.html")
        (Context false None (Some false) None None None None None
           (Some (py "No matching employee found in the database.")))))
  end.

(** The two outer [except] clauses of [verify_employee]. *)
Definition verify_employee_except (e : exn) : M (option response) :=
  if bool_decide (exn_class_of e = FaceRecognitionError) then
    messages_error (exn_str e);;
    mret None
  else
    logger_error (py "Error during verification: " ++ exn_str e);;
    messages_error (py "An error occurred during verification: " ++ exn_str e);;
    mret None.

(** Lines 126-192 of [verify_employee]: the inner [try] ... [finally]
    statement, which owns the temporary file. *)
Definition verify_probe (temp_path : pystr) : M (option response) :=
  let full_temp_path := os_path_join (MEDIA_ROOT E) temp_path in
  try_finally
    (query_embedding ← FaceService.extract_embedding E full_temp_path;
     let embedding_list := FaceService.embedding_to_list query_embedding in
     match_result ← ChromaService.search_embedding E embedding_list;
     default_storage_delete temp_path;;
     verify_after_search match_result)
    (still_there ← default_storage_exists temp_path;
     if still_there : bool then default_storage_delete temp_path
     else mret ()).

(** [verify_employee(request)] *)
Definition verify_employee (request : request) : M response :=
  returned ←
    match method request with
    | POST =>
        if form_is_valid request then
          try_except
            (temp_path ← default_storage_save (py "temp/" ++ upload_name request);
             verify_probe temp_path)
            verify_employee_except
        else mret None
    | GET => mret None
    end;
  match returned with
  | Some resp => mret resp
  | None =>
      mret (Render (py "verify_employee.html") (form_context (py "Verify Employee")))
  end.

Variable X : env_ext.

(** The context of the home page. *)
Record home_context := HomeContext {
  employee_count : nat;
  chroma_stats : ChromaService.collection_stats
}.

(** [Employee.objects.count()]: the number of rows, or the database
    raises. *)
Definition objects_count : M nat := λ w,
  match db_count_fault X with
  | Some e => (Raise e, w)
  | None => (Ok (size (employees w)), w)
  end.

(** [home(request)]: the template and its context; nothing in the view
    catches what the count raises. *)
Definition home (request : request) : M (pystr * home_context) :=
  stats ← ChromaService.get_collection_stats E X;
  employee_count ← objects_count;
  mret (py "home.html", HomeContext employee_count stats).

End WithEnv.
End Views.

(* ===================================================================== *)
(** ** Notions the statements use *)
(* ===================================================================== *)

(** Only the client handles and the error log may differ. *)
Definition same_stores (w w' : world) : Prop :=
  employees w' = employees w ∧ collection w' = collection w
  ∧ files w' = files w ∧ flashed w' = flashed w
  ∧ db_deletes w' = db_deletes w
  ∧ storage_deletes w' = storage_deletes w.

(** The collection handle is cached, or it can be obtained. *)
Definition collection_available (E : env) (w : world) : Prop :=
  chroma_collection w = true
  ∨ ((chroma_client w = true ∨ client_fault E = None)
     ∧ create_collection_fault E = None).

(** The value of [results['metadatas'][0][0] if results['metadatas'] else {}],
    when it has one. *)
Definition first_metadata (rs : query_results) : option (gmap pystr pystr) :=
  match metadatas rs with
  | None | Some [] => Some ∅
  | Some ((m :: _) :: _) => Some m
  | Some ([] :: _) => None
  end.

Inductive confidence := High | Medium.

Inductive decision :=
| Match (c : confidence)
| NoMatch.

(** The decision policy in the words of the specification: match when the
    similarity reaches the threshold, with confidence High from 0.8 on and
    Medium below. *)
Definition decide_spec (similarity threshold : float) : decision :=
  if (threshold <=? similarity)%float then
    Match (if (0.8 <=? similarity)%float then High else Medium)
  else NoMatch.

(** The decision a rendered result page shows. *)
Definition decision_shown (ctx : context) : option decision :=
  match ctx_match_found ctx, ctx_confidence ctx with
  | Some true, Some label =>
      if decide (label = py "High") then Some (Match High)
      else if decide (label = py "Medium") then Some (Match Medium)
      else None
  | Some false, None => Some NoMatch
  | _, _ => None
  end.

(** The error [extract_embedding] constructs when DeepFace finds [n] faces. *)
Definition multiple_faces_error (n : nat) : exn :=
  FaceService.face_error
    (py "Multiple faces detected (" ++ str_int (Z.of_nat n) ++ py "). "
     ++ py "Please provide an image with a single face.").

(** The query found no candidate: [results['ids']] is empty, or its first
    list is. *)
Definition no_candidates (rs : query_results) : Prop :=
  ids rs = [] ∨ ∃ rest, ids rs = [] :: rest.

(** The query names only ids that are stored in the collection. *)
Definition query_sound (E : env) (w : world) : Prop :=
  ∀ q rs l id,
    query E q = Ok rs → l ∈ ids rs → id ∈ l → is_Some (collection w !! id).

(** The index is empty, or the query for [v] returns no candidate. *)
Definition nothing_to_find (E : env) (v : list float) (w : world) : Prop :=
  (collection w = ∅ ∧ query_sound E w)
  ∨ (∃ rs, query E v = Ok rs ∧ no_candidates rs).

(** What the result page shows when the search returned nothing. *)
Definition no_match_response : response :=
  Render (py "result.html")
    (Context false None (Some false) None None None None None
       (Some (py "No matching employee found in the database."))).

(** The temporary file of a verification request, when one is stored. *)
Definition temp_acquired (E : env) (req : request) : option pystr :=
  match method req with
  | POST =>
      if form_is_valid req then
        match storage_save E (py "temp/" ++ upload_name req) with
        | Ok p => Some p
        | Raise _ => None
        end
      else None
  | GET => None
  end.

(** The next [default_storage.delete] does not raise. *)
Definition storage_delete_works (E : env) (w : world) : Prop :=
  storage_delete_fault E (storage_deletes w) = None.

(** What the verification view flashes for an exception that reaches its
    [except] clauses. *)
Definition verification_failure_text (e : exn) : pystr :=
  if bool_decide (exn_class_of e = FaceRecognitionError) then exn_str e
  else py "An error occurred during verification: " ++ exn_str e.

(** The ids with a record are the ids with an embedding. *)
Definition stores_consistent (w : world) : Prop :=
  dom (employees w) = dom (collection w).

(** The name under which [form.save()] asks the storage to keep the photo
    of a form, and the name the storage gives it. *)
Definition photo_upload (form : employee_form) : pystr :=
  py "employee_photos/" ++ form_image_name form.

Definition photo_stored (E : env) (form : employee_form) : result pystr :=
  storage_save E (photo_upload form).

(* ===================================================================== *)
(** ** Concrete environments and inputs for the examples *)
(* ===================================================================== *)

Module Example.

(** [str(x)] on the floats the examples use. *)
Definition float_table (x : float) : list float_char :=
  if (x =? 8)%float then float_text "8.0"
  else if (x =? 7.5)%float then float_text "7.5"
  else float_text "nan".

(** [format(x, '.1f')] on the floats the examples use. *)
Definition one_decimal_table (x : float) : pystr :=
  if (x =? 50)%float then py "50.0"
  else if (x =? 65)%float then py "65.0"
  else py "nan".

Definition one_face : list face := [Face [1; 0]%float].
Definition two_faces : list face := [Face [1; 0]%float; Face [0; 1]%float].

Definition empty_answer : query_results := QueryResults [[]] [[]] (Some [[]]).

Definition an_id : pystr := py "3f2b8c1e-5d4a-4e6f-9a7b-0c1d2e3f4a5b".

Definition candidate (distance : float) : query_results :=
  QueryResults [[an_id]] [[distance]] (Some [[∅]]).

(** An environment: the unit vectors of the examples are their own
    normalisation, the storage keeps every file under the name it is given
    and deletes without fault; the parameters are the behaviours that
    vary. *)
Definition environment (save_fault : option exn)
    (delete_fault : nat → option exn) (faces : result (list face))
    (dup : add_dup_policy) (add_fault : option exn)
    (answer : result query_results) : env :=
  Env 0.65%float (py "/srv/media") float_table one_decimal_table (λ v, Ok v)
    an_id save_fault delete_fault (λ _, true) (λ _, faces)
    None None dup add_fault (λ _, answer) (λ name, Ok name) (λ _, None).

(** Nothing fails; the collection answers with no candidate. *)
Definition quiet : env :=
  environment None (λ _, None) (Ok one_face) DupIgnored None (Ok empty_answer).

Definition empty_world : world := World ∅ ∅ false false ∅ [] [] 0 0.

Definition jane : employee_form :=
  EmployeeForm (py "Jane Smith") (py "+1234567890") (py "jane@example.com")
    (py "Acme Corp") (py "Engineer") 8%float None (py "jane.jpg").

Definition post : request := Request POST true jane (py "probe.jpg").

Definition jane_record : Employee :=
  mkEmployee an_id (py "Jane Smith") (py "+1234567890")
    (py "jane@example.com") (py "Acme Corp") (py "Engineer") 8%float None
    (py "/srv/media/employee_photos/jane.jpg").

Definition jane_entry : index_entry :=
  ([1; 0]%float, {[ py "full_name" := py "Jane Smith" ]}).

(** Jane Smith is enrolled: her record and her embedding are stored. *)
Definition enrolled_world : world :=
  World {[ an_id := jane_record ]} {[ an_id := jane_entry ]}
    true true ∅ [] [] 0 0.

Definition db_error : exn := Exn OtherException (py "database is locked").

Definition chroma_error : exn := Exn OtherException (py "hnsw index unavailable").

End Example.

(** The string ["Te\x00st\r\n"]. *)
Definition test_name_raw : pystr := py "Te" ++ [NUL] ++ py "st" ++ [CR; LF].

Definition test_name_input : gmap pystr pyvalue :=
  {[ py "full_name" := PStr test_name_raw ]}.

(** An object that is neither a string nor a number and whose [str()] is
    ["a\nb"], such as [ValueError("a\nb")]. *)
Definition two_line_object : pyvalue := PObj (py "a" ++ [LF] ++ py "b").

(** The metadata the enrollment view passes for Jane Smith. *)
Definition jane_metadata : gmap pystr pyvalue :=
  <[py "full_name" := PStr (py "Jane Smith")]>
  (<[py "employer" := PStr (py " Acme" ++ [NUL] ++ py " Corp" ++ [LF])]>
  (<[py "reputation_score" := PFloat 8%float]> ∅)).

Definition duplicate_id_error : exn :=
  Exn OtherException (py "ID already exists").

(** The write of the examples: a new embedding and new metadata for the id
    of Jane Smith, who is enrolled. *)
Definition rewrite_jane (policy : add_dup_policy) : result bool * world :=
  ChromaService.add_employee_embedding
    (Example.environment None (λ _, None) (Ok Example.one_face) policy None
       (Ok Example.empty_answer))
    Example.an_id [0; 1]%float {[ py "full_name" := PStr (py "J. Smith") ]}
    Example.enrolled_world.

(** An environment whose nearest-neighbour query raises. *)
Definition failing_query : env :=
  Example.environment None (λ _, None) (Ok Example.one_face) DupIgnored None
    (Raise Example.chroma_error).

(** DeepFace finds no face in the photo. *)
Definition faceless : env :=
  Example.environment None (λ _, None)
    (Raise (Exn ValueError (py "Face could not be detected")))
    DupIgnored None (Ok Example.empty_answer).

(** The database refuses every delete, and DeepFace finds no face. *)
Definition faceless_locked : env :=
  Example.environment None (λ _, Some Example.db_error)
    (Raise (Exn ValueError (py "Face could not be detected")))
    DupIgnored None (Ok Example.empty_answer).

(* ===================================================================== *)
(** ** Further notions, environments and inputs *)
(* ===================================================================== *)

Module More.

(** [a / b] on the ints the examples divide. *)
Definition truediv_table (a b : Z) : float :=
  if bool_decide (a = 5242880 ∧ b = 1048576)%Z then 5%float else nan.

(** The rest of an environment; the parameters are the behaviours that
    vary. *)
Definition ext (faces : result nat) (delete_fault update_fault : option exn)
    (merge : update_metadata_policy) (missing : update_missing_policy)
    (count_fault : option exn) : env_ext :=
  EnvExt 5242880 truediv_table (λ _, faces) delete_fault update_fault merge
    missing count_fault None.

(** Nothing fails; DeepFace sees one face. *)
Definition calm : env_ext :=
  ext (Ok 1%nat) None None MetadataMerged MissingIgnored None.

(** DeepFace raises [ValueError] on the photo. *)
Definition no_face : exn := Exn ValueError (py "Face could not be detected").

(** The ChromaDB client cannot be created. *)
Definition unreachable : env :=
  Env 0.65%float (py "/srv/media") Example.float_table
    Example.one_decimal_table (λ v, Ok v) Example.an_id None (λ _, None)
    (λ _, true) (λ _, Ok Example.one_face) (Some Example.chroma_error) None
    DupIgnored None (λ _, Ok Example.empty_answer) (λ name, Ok name)
    (λ _, None).

(** What the storage raises when it cannot remove a file. *)
Definition storage_error : exn :=
  Exn OtherException (py "[Errno 13] Permission denied").

(** [E] with a storage whose [n]-th delete does what [fault n] says. *)
Definition with_storage_delete_fault (fault : nat → option exn) (E : env)
    : env :=
  Env (SIMILARITY_THRESHOLD E) (MEDIA_ROOT E) (float_repr E) (format_1f E)
    (normalize E) (uuid4 E) (db_save_fault E) (db_delete_fault E)
    (path_exists E) (represent E) (client_fault E)
    (create_collection_fault E) (add_dup E) (add_fault E) (query E)
    (storage_save E) fault.

(** Nothing fails but the storage, which cannot delete. *)
Definition stuck_storage : env :=
  with_storage_delete_fault (λ _, Some storage_error) Example.quiet.

End More.

(** The form page of the verification view. *)
Definition verify_form_page : response :=
  Render (py "verify_employee.html") (Views.form_context (py "Verify Employee")).

(** The form page of the enrollment view. *)
Definition add_form_page : response :=
  Render (py "add_employee.html") (Views.form_context (py "Add New Employee")).

(** Jane Smith's embedding is stored, her record is not. *)
Definition orphan_world : world :=
  World ∅ {[ Example.an_id := Example.jane_entry ]} true true ∅ [] [] 0 0.

(** The collection answers with Jane Smith's id at distance 0.3. *)
Definition near_jane : env :=
  Example.environment None (λ _, None) (Ok Example.one_face) DupIgnored None
    (Ok (Example.candidate 0.3%float)).

(** The row [form.save()] creates, for a photo stored under [photo]. *)
Definition new_employee (E : env) (form : employee_form) (photo : pystr)
    : Employee :=
  mkEmployee (uuid4 E) (form_full_name form) (form_phone form)
    (form_email form) (form_employer_name form) (form_position form)
    (form_reputation_score form) (form_notes form)
    (os_path_join (MEDIA_ROOT E) photo).

(** The metadata the view builds for a row. *)
Definition enrollment_metadata (employee : Employee) : gmap pystr pyvalue :=
  <[py "full_name" := PStr (full_name employee)]>
  (<[py "employer" := PStr (employer_name employee)]>
  (<[py "reputation_score" := PFloat (reputation_score employee)]> ∅)).

(** The message of a successful enrollment. *)
Definition success_message (employee : Employee) : pystr :=
  py "Employee " ++ [34] ++ full_name employee ++ [34]
  ++ py " added successfully with facial recognition data.".

(** The order of the four labels. *)
Definition reputation_rank (label : pystr) : nat :=
  if decide (label = py "Excellent") then 3
  else if decide (label = py "Good") then 2
  else if decide (label = py "Average") then 1
  else 0.

(* ===================================================================== *)
(** ** Characters that survive the string operations *)
(* ===================================================================== *)

Section StringFacts.
Implicit Types (s new : pystr) (c old : N).

Lemma elem_of_lstrip c s : c ∈ lstrip s → c ∈ s.
Proof.
  induction s as [|a s IH]; simpl; [done|].
  destruct (isspace a); [|done].
  intros H. apply elem_of_cons. right. by apply IH.
Qed.

Lemma elem_of_strip c s : c ∈ strip s → c ∈ s.
Proof.
  unfold strip, rstrip. rewrite elem_of_reverse. intros H.
  apply elem_of_lstrip in H. rewrite elem_of_reverse in H.
  by apply elem_of_lstrip.
Qed.

Lemma elem_of_replace1 c old new s :
  c ∈ replace1 old new s → c ∈ new ∨ (c ∈ s ∧ c ≠ old).
Proof.
  induction s as [|a s IH]; simpl.
  - by intros ?%elem_of_nil.
  - rewrite elem_of_app. intros [H|H].
    + destruct (N.eqb_spec a old) as [->|Hne]; [by left|].
      apply list_elem_of_singleton in H as ->. right. split; [left|done].
    + destruct (IH H) as [?|[? ?]]; [by left|].
      right. split; [by right|done].
Qed.

Lemma uint_digits_range u c : c ∈ uint_digits u → 48 ≤ c ≤ 57.
Proof.
  induction u; simpl; try (by intros ?%elem_of_nil);
    (intros [->|?]%elem_of_cons; [lia|auto]).
Qed.

Lemma str_int_chars z c : c ∈ str_int z → c = 45 ∨ 48 ≤ c ≤ 57.
Proof.
  unfold str_int. destruct (Z.to_int z) as [u|u].
  - intros ?%uint_digits_range. by right.
  - intros [->|?%uint_digits_range]%elem_of_cons; [by left|by right].
Qed.

Lemma str_int_ctrl_free z : ctrl_free (str_int z).
Proof.
  unfold ctrl_free, NUL, CR, LF.
  split_and!; intros [?|?]%str_int_chars; lia.
Qed.

Lemma str_bool_ctrl_free b : ctrl_free (str_bool b).
Proof.
  unfold ctrl_free. destruct b; vm_compute; split_and!; intros H;
    repeat (apply elem_of_cons in H as [H|H]; [discriminate H|]);
    by apply elem_of_nil in H.
Qed.

(** The chain of [replace] calls and [strip] leaves no NUL, CR or LF. *)
Lemma sanitized_ctrl_free s :
  ctrl_free
    (strip (replace1 LF [SPACE] (replace1 CR [] (replace1 NUL [] s)))).
Proof.
  unfold ctrl_free, NUL, CR, LF, SPACE.
  split_and!; intros H%elem_of_strip;
    apply elem_of_replace1 in H as [H|[H ?]];
    try (apply list_elem_of_singleton in H; discriminate H); try done;
    apply elem_of_replace1 in H as [H|[H ?]];
    try (by apply elem_of_nil in H); try done;
    apply elem_of_replace1 in H as [H|[H ?]];
    try (by apply elem_of_nil in H); done.
Qed.

(** The text of a float has no NUL, CR or LF. *)
Lemma float_str_ctrl_free (E : env) (x : float) : ctrl_free (float_str E x).
Proof.
  unfold ctrl_free, float_str, NUL, CR, LF.
  split_and!; intros (c & Hc & _)%list_elem_of_fmap; by destruct c.
Qed.

Lemma ctrl_freeb_spec s : ctrl_freeb s = true ↔ ctrl_free s.
Proof.
  unfold ctrl_freeb, ctrl_free. rewrite forallb_forall.
  setoid_rewrite <- list_elem_of_In. split.
  - intros H. split_and!; intros Hin; apply H in Hin; by vm_compute in Hin.
  - intros (H0 & H13 & H10) c Hc.
    destruct (N.eqb_spec c NUL) as [->|?]; [done|].
    destruct (N.eqb_spec c CR) as [->|?]; [done|].
    destruct (N.eqb_spec c LF) as [->|?]; done.
Qed.

End StringFacts.

(* ===================================================================== *)
(** ** What a call leaves untouched *)
(* ===================================================================== *)

Ltac unfold_M :=
  unfold mbind, M_bind, mret, M_ret, try_except, try_finally, raise, lift,
    logger_error, messages_error, messages_success, modify in *.

Lemma get_collection_frame (E : env) w :
  same_stores w (ChromaService._get_collection E w).2.
Proof.
  unfold ChromaService._get_collection, ChromaService._get_client.
  unfold_M. repeat case_match; simplify_eq/=; by unfold same_stores.
Qed.

Lemma extract_embedding_frame (E : env) path w :
  same_stores w (FaceService.extract_embedding E path w).2.
Proof.
  unfold FaceService.extract_embedding. unfold_M.
  repeat case_match; simplify_eq/=; by unfold same_stores.
Qed.

(** The metadata loop maps [clean_value] over the dictionary. *)
Lemma clean_metadata_lookup (E : env) (metadata : gmap pystr pyvalue) key :
  ChromaService.clean_metadata E metadata !! key
  = ChromaService.clean_value E <$> metadata !! key.
Proof.
  unfold ChromaService.clean_metadata.
  apply (map_fold_weak_ind
    (λ (r : gmap pystr pystr) (m : gmap pystr pyvalue),
       r !! key = ChromaService.clean_value E <$> m !! key)).
  - by rewrite !lookup_empty.
  - intros k v m r Hk IH. destruct (decide (k = key)) as [->|Hne].
    + by rewrite !lookup_insert_eq.
    + by rewrite !lookup_insert_ne.
Qed.

Lemma clean_metadata_fmap (E : env) (metadata : gmap pystr pyvalue) :
  ChromaService.clean_metadata E metadata
  = ChromaService.clean_value E <$> metadata.
Proof.
  apply map_eq. intros key.
  by rewrite clean_metadata_lookup, lookup_fmap.
Qed.

(** [add_employee_embedding] never raises; it touches the collection only,
    and only by adding an entry under an id that had none. *)
Lemma add_employee_embedding_spec (E : env) id embedding metadata w :
  ∃ (success : bool) (w' : world),
    ChromaService.add_employee_embedding E id embedding metadata w
      = (Ok success, w')
    ∧ employees w' = employees w ∧ files w' = files w
    ∧ flashed w' = flashed w ∧ db_deletes w' = db_deletes w
    ∧ collection w' =
        (if success then
           match collection w !! id with
           | Some _ => collection w
           | None =>
               <[id := (embedding, ChromaService.clean_metadata E metadata)]>
                 (collection w)
           end
         else collection w)
    ∧ (success = true → is_Some (collection w !! id) → add_dup E = DupIgnored).
Proof.
  unfold ChromaService.add_employee_embedding.
  pose proof (get_collection_frame E w) as Hf.
  unfold_M. unfold ChromaService.collection_add.
  destruct (ChromaService._get_collection E w) as [[[]|e] w1] eqn:Hg;
    simpl in Hf; destruct Hf as (He & Hc & Hfi & Hfl & Hd & _).
  - rewrite Hc.
    destruct (add_fault E) as [e|]; simpl.
    { eexists false, _. split; [done|]. simpl. split_and!; done. }
    destruct (collection w !! id) as [old|] eqn:Hl.
    + destruct (add_dup E) as [e|] eqn:Hdup; simpl.
      * eexists false, _. split; [done|]. simpl. split_and!; done.
      * eexists true, _. split; [done|]. simpl. split_and!; done.
    + eexists true, _. split; [done|]. simpl. rewrite Hc.
      split_and!; done.
  - eexists false, _. split; [done|]. simpl. split_and!; done.
Qed.

(* ===================================================================== *)
(** ** Metadata written to the index *)
(* ===================================================================== *)

(** A successful write under a free id stores the cleaned metadata. *)
Lemma add_employee_embedding_stored (E : env) id embedding metadata w w' :
  ChromaService.add_employee_embedding E id embedding metadata w
    = (Ok true, w') →
  collection w !! id = None →
  collection w' !! id
    = Some (embedding, ChromaService.clean_metadata E metadata).
Proof.
  intros Hrun Hfree.
  destruct (add_employee_embedding_spec E id embedding metadata w)
    as (b & w'' & Heq & _ & _ & _ & _ & Hc & _).
  rewrite Hrun in Heq. simplify_eq. rewrite Hc, Hfree.
  by rewrite lookup_insert_eq.
Qed.

(** C5, as the claim states it, fails: the value stored for
    ["Te\x00st\r\n"] is not ["Test "]. *)
Lemma C5_trailing_space_does_not_survive :
  ChromaService.clean_metadata Example.quiet test_name_input
  ≠ {[ py "full_name" := py "Test " ]}.
Proof.
  intros H. apply (f_equal (λ m : gmap pystr pystr, m !! py "full_name")) in H.
  rewrite clean_metadata_lookup in H. unfold test_name_input in H.
  rewrite !lookup_singleton_eq in H. vm_compute in H. discriminate H.
Qed.

(** C5 (amended): sanitizing [{"full_name": "Te\x00st\r\n"}] gives
    [{"full_name": "Test"}]: NUL and CR are removed, LF becomes a space, and
    the final [strip()] removes that trailing space; this is the value a
    successful write stores. *)
Theorem C5_sanitized_test_name (E : env) :
  ChromaService.clean_metadata E test_name_input
    = {[ py "full_name" := py "Test" ]}
  ∧ ∀ id embedding w w',
      ChromaService.add_employee_embedding E id embedding test_name_input w
        = (Ok true, w') →
      collection w !! id = None →
      collection w' !! id = Some (embedding, {[ py "full_name" := py "Test" ]}).
Proof.
  assert (ChromaService.clean_metadata E test_name_input
          = {[ py "full_name" := py "Test" ]}) as Hclean.
  { rewrite clean_metadata_fmap. unfold test_name_input.
    rewrite map_fmap_singleton. f_equal. }
  split; [done|].
  intros id embedding w w' Hrun Hfree. rewrite <- Hclean.
  by apply (add_employee_embedding_stored E id embedding test_name_input w w').
Qed.

(** The stored value after a write into the empty collection. *)
Lemma C5_sanitized_test_name_witness :
  collection
    (ChromaService.add_employee_embedding Example.quiet Example.an_id
       [1; 0]%float test_name_input Example.empty_world).2 !! Example.an_id
  = Some ([1; 0]%float, {[ py "full_name" := py "Test" ]}).
Proof.
  apply (proj2 (C5_sanitized_test_name Example.quiet) Example.an_id
           [1; 0]%float Example.empty_world
           (ChromaService.add_employee_embedding Example.quiet Example.an_id
              [1; 0]%float test_name_input Example.empty_world).2);
    vm_compute; reflexivity.
Defined.

(** What the loop body makes of one value, by the type of the value. *)
Lemma clean_value_cases (E : env) (value : pyvalue) :
  match value with
  | PStr s =>
      ChromaService.clean_value E value
        = strip (replace1 LF [SPACE] (replace1 CR [] (replace1 NUL [] s)))
      ∧ ctrl_free (ChromaService.clean_value E value)
  | PBool b =>
      ChromaService.clean_value E value = str_bool b
      ∧ ctrl_free (ChromaService.clean_value E value)
  | PInt z =>
      ChromaService.clean_value E value = str_int z
      ∧ ctrl_free (ChromaService.clean_value E value)
  | PFloat x =>
      ChromaService.clean_value E value = float_str E x
      ∧ ctrl_free (ChromaService.clean_value E value)
  | PObj repr => ChromaService.clean_value E value = repr
  end.
Proof.
  destruct value; unfold ChromaService.clean_value; simpl; try done.
  - split; [done|]. apply sanitized_ctrl_free.
  - split; [done|]. apply str_bool_ctrl_free.
  - split; [done|]. apply str_int_ctrl_free.
  - split; [done|]. apply float_str_ctrl_free.
Qed.

(** The value written for a string or a number has no NUL, CR or LF. *)
Lemma clean_value_ctrl_free (E : env) (value : pyvalue) :
  isinstance_str value = true ∨ isinstance_num value = true →
  ctrl_free (ChromaService.clean_value E value).
Proof.
  pose proof (clean_value_cases E value) as H.
  destruct value; try (by destruct H).
  by intros [?|?].
Qed.

Lemma clean_value_keeps_ctrl_free (E : env) (value : pyvalue) :
  ctrl_free (ChromaService.py_str E value) →
  ctrl_free (ChromaService.clean_value E value).
Proof.
  destruct value; unfold ChromaService.clean_value; simpl; try done.
  intros _. apply sanitized_ctrl_free.
Qed.

(** C4, as the claim states it, fails: the value written for an object
    that is neither a string nor a number is its [str()], here with its
    LF. *)
Lemma C4_object_value_keeps_newline :
  collection
    (ChromaService.add_employee_embedding Example.quiet Example.an_id
       [1; 0]%float {[ py "notes" := two_line_object ]}
       Example.empty_world).2 !! Example.an_id
    ≫= (λ entry : index_entry, entry.2 !! py "notes")
  = Some (py "a" ++ [LF] ++ py "b")
  ∧ ¬ ctrl_free (py "a" ++ [LF] ++ py "b").
Proof.
  split; [vm_compute; reflexivity|].
  intros H%ctrl_freeb_spec. vm_compute in H. discriminate H.
Qed.

(** C4 (amended): a successful index write under a free id stores, for
    every key of the metadata, one string: a string value with NUL and CR
    removed, LF replaced by a space, and trimmed; any other value, numeric
    or not, as its [str()].  The stored string has no NUL, CR or LF when
    the value is a string or a number (a boolean, an integer or a float);
    the [str()] of a value of another type is stored as it is, so its
    stored string has no NUL, CR or LF only if that [str()] has none. *)
Theorem C4_written_metadata (E : env) (id : pystr) (embedding : list float)
    (metadata : gmap pystr pyvalue) (w w' : world) :
  ChromaService.add_employee_embedding E id embedding metadata w
    = (Ok true, w') →
  collection w !! id = None →
  ∃ written : gmap pystr pystr,
    collection w' !! id = Some (embedding, written)
    ∧ ∀ key : pystr,
        written !! key = ChromaService.clean_value E <$> metadata !! key
        ∧ ∀ value, metadata !! key = Some value →
            ∃ text, written !! key = Some text
              ∧ match value with
                | PStr s =>
                    text = strip (replace1 LF [SPACE]
                                    (replace1 CR [] (replace1 NUL [] s)))
                    ∧ ctrl_free text
                | PBool b => text = str_bool b ∧ ctrl_free text
                | PInt z => text = str_int z ∧ ctrl_free text
                | PFloat x => text = float_str E x ∧ ctrl_free text
                | PObj repr => text = repr
                end
              ∧ (isinstance_str value = true ∨ isinstance_num value = true →
                 ctrl_free text)
              ∧ (ctrl_free (ChromaService.py_str E value) → ctrl_free text).
Proof.
  intros Hrun Hfree. eexists. split.
  { by apply (add_employee_embedding_stored E id embedding metadata w w'). }
  intros key. split; [apply clean_metadata_lookup|].
  intros value Hv. exists (ChromaService.clean_value E value).
  rewrite clean_metadata_lookup, Hv. split; [done|]. split_and!.
  - apply clean_value_cases.
  - apply clean_value_ctrl_free.
  - apply clean_value_keeps_ctrl_free.
Qed.

(** The metadata of Jane Smith, with a NUL and an LF in the employer name, written into the empty collection. *)
Lemma C4_written_metadata_witness :
  ∃ written : gmap pystr pystr,
    collection
      (ChromaService.add_employee_embedding Example.quiet Example.an_id
         [1; 0]%float jane_metadata Example.empty_world).2 !! Example.an_id
    = Some ([1; 0]%float, written)
    ∧ written !! py "employer" = Some (py "Acme Corp")
    ∧ written !! py "reputation_score" = Some (py "8.0").
Proof.
  destruct (C4_written_metadata Example.quiet Example.an_id [1; 0]%float
              jane_metadata Example.empty_world
              (ChromaService.add_employee_embedding Example.quiet
                 Example.an_id [1; 0]%float jane_metadata
                 Example.empty_world).2)
    as (written & Hstored & Hkeys); [vm_compute; reflexivity..|].
  exists written. split; [exact Hstored|]. split.
  - rewrite (proj1 (Hkeys (py "employer"))). vm_compute. reflexivity.
  - rewrite (proj1 (Hkeys (py "reputation_score"))). vm_compute. reflexivity.
Defined.

(* ===================================================================== *)
(** ** The nearest-neighbour search: distance to similarity *)
(* ===================================================================== *)

Lemma get_collection_ok (E : env) (w : world) :
  collection_available E w →
  ∃ w', ChromaService._get_collection E w = (Ok (), w')
        ∧ same_stores w w' ∧ error_log w' = error_log w.
Proof.
  unfold collection_available, ChromaService._get_collection,
    ChromaService._get_client. unfold_M.
  intros [Hc|[[Hc|Hc] Hf]].
  - rewrite Hc. eexists. split; [done|]. by unfold same_stores.
  - destruct (chroma_collection w); [by eexists; unfold same_stores|].
    rewrite Hc, Hf. simpl. eexists. split; [done|]. by unfold same_stores.
  - destruct (chroma_collection w); [by eexists; unfold same_stores|].
    destruct (chroma_client w); rewrite ?Hc, Hf; simpl;
      (eexists; split; [done|]; by unfold same_stores).
Qed.

(** C2: when the query returns a nearest candidate at cosine distance [d],
    [search_embedding] returns it with that distance and with similarity
    [1 - d / 2]; so distance 0 gives 1.0, distance 1.0 gives 0.5, distance 2
    gives 0.0, and distance 0.3 gives 0.85 within 0.005. *)
Theorem C2_similarity_of_distance (E : env) (q : list float) (w : world)
    (rs : query_results) (id : pystr) (ids_rest : list pystr)
    (other_ids : list (list pystr)) (d : float) (ds_rest : list float)
    (other_ds : list (list float)) (md : gmap pystr pystr) :
  collection_available E w →
  query E q = Ok rs →
  ids rs = (id :: ids_rest) :: other_ids →
  distances rs = (d :: ds_rest) :: other_ds →
  first_metadata rs = Some md →
  ∃ (mr : ChromaService.match_result) (w' : world),
    ChromaService.search_embedding E q w = (Ok (Some mr), w')
    ∧ ChromaService.mr_id mr = id
    ∧ ChromaService.mr_distance mr = d
    ∧ ChromaService.mr_metadata mr = md
    ∧ ChromaService.mr_similarity mr = (1 - d / 2)%float
    ∧ (d = 0%float → ChromaService.mr_similarity mr = 1%float)
    ∧ (d = 1%float → ChromaService.mr_similarity mr = 0.5%float)
    ∧ (d = 2%float → ChromaService.mr_similarity mr = 0%float)
    ∧ (d = 0.3%float →
       (PrimFloat.abs (ChromaService.mr_similarity mr - 0.85) <? 0.005)%float
       = true).
Proof.
  intros Hav Hq Hids Hds Hmd.
  destruct (get_collection_ok E w Hav) as (w' & Hg & _ & _).
  exists (ChromaService.MatchResult id d (1 - d / 2)%float md), w'.
  split.
  - unfold ChromaService.search_embedding, ChromaService.collection_query.
    unfold_M. rewrite Hg, Hq, Hids, Hds. simpl.
    unfold first_metadata in Hmd.
    destruct (metadatas rs) as [[|[|m ms] mss]|]; by simplify_eq/=.
  - simpl. split_and!; try done; by intros ->.
Qed.

(** The candidate at distance 0.3 of the test suite. *)
Lemma C2_similarity_of_distance_witness :
  ∃ (mr : ChromaService.match_result) (w' : world),
    ChromaService.search_embedding
      (Example.environment None (λ _, None) (Ok Example.one_face) DupIgnored
         None (Ok (Example.candidate 0.3%float)))
      [1; 0]%float Example.empty_world = (Ok (Some mr), w')
    ∧ ChromaService.mr_id mr = Example.an_id
    ∧ (PrimFloat.abs (ChromaService.mr_similarity mr - 0.85) <? 0.005)%float
      = true.
Proof.
  destruct (C2_similarity_of_distance
              (Example.environment None (λ _, None) (Ok Example.one_face)
                 DupIgnored None (Ok (Example.candidate 0.3%float)))
              [1; 0]%float Example.empty_world (Example.candidate 0.3%float)
              Example.an_id [] [] 0.3%float [] [] ∅)
    as (mr & w' & Hrun & Hid & _ & _ & _ & _ & _ & _ & Hnear);
    [right; split; [right|]; reflexivity | reflexivity..|].
  exists mr, w'. split; [exact Hrun|]. split; [exact Hid|].
  apply Hnear. reflexivity.
Defined.

(* ===================================================================== *)
(** ** The decision on a candidate *)
(* ===================================================================== *)

Lemma SFcompare_Lt_flip (x y : spec_float) :
  SFcompare x y = Some Lt → SFcompare y x = Some Gt.
Proof.
  destruct x as [sx|sx| |sx mx ex], y as [sy|sy| |sy my ey]; simpl;
    try destruct sx; try destruct sy; simpl; try congruence.
  all: rewrite (Z.compare_antisym ey ex); destruct (ey ?= ex)%Z; simpl;
    try congruence.
  all: change (PosDef.Pos.compare_cont Eq mx my) with (Pos.compare mx my);
    change (PosDef.Pos.compare_cont Eq my mx) with (Pos.compare my mx);
    rewrite (Pos.compare_antisym my mx); destruct (my ?= mx)%positive;
    simpl; congruence.
Qed.

(** On floats, [s < t] excludes [s >= t]. *)
Lemma float_ltb_not_geb (s t : float) :
  (s <? t)%float = true → (t <=? s)%float = false.
Proof.
  rewrite ltb_spec, leb_spec. unfold SFltb, SFleb. intros H.
  destruct (SFcompare (Prim2SF s) (Prim2SF t)) as [[]|] eqn:Hc;
    try discriminate H.
  by rewrite (SFcompare_Lt_flip _ _ Hc).
Qed.

(** C3: on a candidate with similarity [s], under threshold [t] (and with
    the record of a candidate that reaches the threshold in the table), the
    view renders the result page with the decision of the policy: a match
    exactly when [s >= t], with confidence High exactly when moreover
    [s >= 0.8] and Medium otherwise, and no match when [s < t].  The
    confidence of a match does not depend on the threshold. *)
Theorem C3_decision (E : env) (mr : ChromaService.match_result) (w : world) :
  ((SIMILARITY_THRESHOLD E <=? ChromaService.mr_similarity mr)%float = true →
   is_Some (employees w !! ChromaService.mr_id mr)) →
  let s := ChromaService.mr_similarity mr in
  let t := SIMILARITY_THRESHOLD E in
  (∃ ctx : context,
     Views.verify_after_search E (Some mr) w
       = (Ok (Some (Render (py "result.html") ctx)), w)
     ∧ decision_shown ctx = Some (decide_spec s t)
     ∧ ctx_similarity ctx = Some s ∧ ctx_threshold ctx = Some t)
  ∧ ((∃ c, decide_spec s t = Match c) ↔ (t <=? s)%float = true)
  ∧ (decide_spec s t = Match High
     ↔ (t <=? s)%float = true ∧ (0.8 <=? s)%float = true)
  ∧ (decide_spec s t = Match Medium
     ↔ (t <=? s)%float = true ∧ (0.8 <=? s)%float = false)
  ∧ ((s <? t)%float = true → decide_spec s t = NoMatch)
  ∧ (∀ t' : float, (t' <=? s)%float = true → (t <=? s)%float = true →
       decide_spec s t' = decide_spec s t)
  ∧ decide_spec 0.90 0.65 = Match High
  ∧ decide_spec 0.70 0.65 = Match Medium
  ∧ decide_spec 0.50 0.65 = NoMatch.
Proof.
  intros Hrec s t. split_and!; try reflexivity.
  - unfold Views.verify_after_search, Views.objects_get, decide_spec.
    unfold_M. fold s t.
    destruct (t <=? s)%float eqn:Hts.
    + destruct (Hrec Hts) as [employee ->]. eexists. split; [done|].
      unfold decision_shown. simpl.
      destruct (0.8 <=? s)%float; simpl; split_and!; try done.
    + eexists. split; [done|]. by split_and!.
  - unfold decide_spec. destruct (t <=? s)%float; split; try done.
    + by eexists.
    + by intros [c ?].
  - unfold decide_spec.
    destruct (t <=? s)%float, (0.8 <=? s)%float; split; try done;
      by intros [? ?].
  - unfold decide_spec.
    destruct (t <=? s)%float, (0.8 <=? s)%float; split; try done;
      by intros [? ?].
  - intros Hlt. unfold decide_spec. by rewrite (float_ltb_not_geb s t Hlt).
  - intros t' Ht' Ht. unfold decide_spec. by rewrite Ht', Ht.
Qed.

(** Similarity 0.90 under the default threshold 0.65, with Jane Smith enrolled. *)
Lemma C3_decision_witness :
  ∃ ctx : context,
    Views.verify_after_search Example.quiet
      (Some (ChromaService.MatchResult Example.an_id 0.2 0.90 ∅))
      Example.enrolled_world
    = (Ok (Some (Render (py "result.html") ctx)), Example.enrolled_world)
    ∧ decision_shown ctx = Some (Match High).
Proof.
  destruct (C3_decision Example.quiet
              (ChromaService.MatchResult Example.an_id 0.2 0.90 ∅)
              Example.enrolled_world)
    as ((ctx & Hrun & Hshown & _) & _).
  - intros _. exists Example.jane_record. vm_compute. reflexivity.
  - exists ctx. split; [exact Hrun|]. rewrite Hshown. reflexivity.
Defined.

(* ===================================================================== *)
(** ** Extraction errors *)
(* ===================================================================== *)

(** C8 fails on the code: when DeepFace finds several faces, the error
    raised for it inside the [try] block -- its text is the message that
    [validate_image] reports for that many faces -- is caught by the block's
    own [except Exception] clause, and the caller receives another error,
    whose text is the first one's behind ["Failed to process image: "]. *)
Theorem C8_multiple_faces_error_is_rewrapped (E : env) (path : pystr)
    (w : world) (faces : list face) :
  path_exists E path = true →
  represent E path = Ok faces →
  (1 < length faces)%nat →
  let raised := multiple_faces_error (length faces) in
  let surfaced :=
    FaceService.face_error (py "Failed to process image: " ++ exn_str raised) in
  FaceService.extract_embedding E path w
    = (Raise surfaced,
       add_log (LogError (py "Error extracting embedding: " ++ exn_str raised)) w)
  ∧ surfaced ≠ raised
  ∧ exn_str raised = FaceService._get_validation_message (length faces).
Proof.
  intros Hex Hrep Hlen raised surfaced. split_and!.
  - unfold FaceService.extract_embedding. unfold_M. rewrite Hex, Hrep. simpl.
    rewrite bool_decide_eq_false_2 by lia.
    rewrite bool_decide_eq_true_2 by lia. simpl. done.
  - unfold surfaced, raised, multiple_faces_error, FaceService.face_error.
    by intros [= ?].
  - unfold FaceService._get_validation_message.
    rewrite !bool_decide_eq_false_2 by lia.
    unfold raised, multiple_faces_error, FaceService.face_error.
    cbn [exn_str].
    apply (f_equal (app _)), (f_equal (app _)). reflexivity.
Qed.

(** Two faces in the probe: the text the caller receives. *)
Lemma C8_multiple_faces_error_is_rewrapped_witness :
  (FaceService.extract_embedding
     (Example.environment None (λ _, None) (Ok Example.two_faces) DupIgnored
        None (Ok Example.empty_answer))
     (py "/srv/media/temp/probe.jpg") Example.empty_world).1
  = Raise (FaceService.face_error
      (py "Failed to process image: Multiple faces detected (2). Please provide an image with a single face.")).
Proof.
  rewrite (proj1 (C8_multiple_faces_error_is_rewrapped
    (Example.environment None (λ _, None) (Ok Example.two_faces) DupIgnored
       None (Ok Example.empty_answer))
    (py "/srv/media/temp/probe.jpg") Example.empty_world Example.two_faces
    eq_refl eq_refl ltac:(simpl; lia))).
  vm_compute. reflexivity.
Defined.

(* ===================================================================== *)
(** ** The index write on an id that is already stored *)
(* ===================================================================== *)

(** C9, as the claim states it, fails: whether the collection ignores or
    rejects the [add] of a stored id, the stored entry stays as it was, and
    in the second case the call reports failure. *)
Lemma C9_add_leaves_old_entry :
  ((rewrite_jane DupIgnored).1 = Ok true
   ∧ collection (rewrite_jane DupIgnored).2 !! Example.an_id
     = Some Example.jane_entry)
  ∧ ((rewrite_jane (DupRaises duplicate_id_error)).1 = Ok false
     ∧ collection (rewrite_jane (DupRaises duplicate_id_error)).2
         !! Example.an_id
       = Some Example.jane_entry)
  ∧ Example.jane_entry.2 !! py "full_name" ≠ Some (py "J. Smith").
Proof.
  split_and!; try (vm_compute; reflexivity).
  vm_compute. discriminate.
Qed.

(** C9 (amended): when an entry for [id] is already stored,
    [add_employee_embedding] leaves the collection as it is, so the old
    entry stays in place; it does not raise, and it reports success only if
    the collection ignores the [add] of a stored id -- when the collection
    is reachable and nothing else fails, exactly then. *)
Theorem C9_add_keeps_existing_entry (E : env) (id : pystr)
    (embedding : list float) (metadata : gmap pystr pyvalue) (w : world)
    (old : index_entry) :
  collection w !! id = Some old →
  ∃ (success : bool) (w' : world),
    ChromaService.add_employee_embedding E id embedding metadata w
      = (Ok success, w')
    ∧ collection w' = collection w
    ∧ collection w' !! id = Some old
    ∧ (success = true → add_dup E = DupIgnored)
    ∧ (collection_available E w → add_fault E = None →
       (success = true ↔ add_dup E = DupIgnored)).
Proof.
  intros Hold.
  destruct (add_employee_embedding_spec E id embedding metadata w)
    as (success & w' & Hrun & _ & _ & _ & _ & Hc & Hdup).
  rewrite Hold in Hc.
  assert (collection w' = collection w) as Hsame by (by destruct success).
  exists success, w'. split_and!; try done.
  - by rewrite Hsame.
  - intros ->. by apply Hdup.
  - intros Hav Hnofault. split; [intros ->; by apply Hdup|].
    intros Hign. revert Hrun.
    unfold ChromaService.add_employee_embedding, ChromaService.collection_add.
    destruct (get_collection_ok E w Hav) as (w1 & Hg & (_ & Hc1 & _) & _).
    unfold_M. rewrite Hg, Hnofault, Hc1, Hold, Hign. by intros [= <- _].
Qed.

(** A second write under the id of Jane Smith, on a collection that ignores it. *)
Lemma C9_add_keeps_existing_entry_witness :
  ∃ (success : bool) (w' : world),
    rewrite_jane DupIgnored = (Ok success, w')
    ∧ collection w' !! Example.an_id = Some Example.jane_entry.
Proof.
  destruct (C9_add_keeps_existing_entry
              (Example.environment None (λ _, None) (Ok Example.one_face)
                 DupIgnored None (Ok Example.empty_answer))
              Example.an_id [0; 1]%float
              {[ py "full_name" := PStr (py "J. Smith") ]}
              Example.enrolled_world Example.jane_entry)
    as (success & w' & Hrun & _ & Hold & _); [vm_compute; reflexivity|].
  exists success, w'. split; [exact Hrun | exact Hold].
Defined.

(* ===================================================================== *)
(** ** Verification: the search fails or finds nothing *)
(* ===================================================================== *)

(** [search_embedding] never raises and leaves the stores as they are. *)
Lemma search_embedding_total (E : env) (q : list float) (w : world) :
  ∃ (r : option ChromaService.match_result) (w' : world),
    ChromaService.search_embedding E q w = (Ok r, w') ∧ same_stores w w'.
Proof.
  unfold ChromaService.search_embedding, ChromaService.collection_query,
    ChromaService.first_of_first.
  pose proof (get_collection_frame E w) as Hf. unfold_M.
  destruct (ChromaService._get_collection E w) as [[[]|e] w1]; simpl in Hf.
  - destruct (query E q) as [rs|e]; simpl; [|by eauto].
    repeat case_match; simplify_eq/=; eauto.
  - by eauto.
Qed.

Lemma search_embedding_no_candidates (E : env) (q : list float) (w : world)
    (rs : query_results) :
  query E q = Ok rs → no_candidates rs →
  ∃ w', ChromaService.search_embedding E q w = (Ok None, w')
        ∧ same_stores w w'.
Proof.
  intros Hq Hnone.
  unfold ChromaService.search_embedding, ChromaService.collection_query.
  pose proof (get_collection_frame E w) as Hf. unfold_M.
  destruct (ChromaService._get_collection E w) as [[[]|e] w1]; simpl in Hf.
  - rewrite Hq. simpl. destruct Hnone as [->|[rest ->]]; by eauto.
  - by eauto.
Qed.

Lemma search_embedding_query_failed (E : env) (q : list float) (w : world)
    (e : exn) :
  query E q = Raise e →
  ∃ (w' : world) (e' : exn),
    ChromaService.search_embedding E q w = (Ok None, w')
    ∧ same_stores w w'
    ∧ last (error_log w')
      = Some (LogError (py "Error searching ChromaDB: " ++ exn_str e'))
    ∧ (collection_available E w → e' = e).
Proof.
  intros Hq.
  unfold ChromaService.search_embedding, ChromaService.collection_query.
  pose proof (get_collection_frame E w) as Hf.
  destruct (ChromaService._get_collection E w) as [[[]|e1] w1] eqn:Hg;
    simpl in Hf; unfold_M; rewrite Hg.
  - rewrite Hq. simpl. eexists _, e. split_and!; try done.
    simpl. by rewrite last_snoc.
  - eexists _, e1. split_and!; try done.
    + simpl. by rewrite last_snoc.
    + intros Hav. destruct (get_collection_ok E w Hav) as (w2 & Hg2 & _).
      rewrite Hg in Hg2. discriminate Hg2.
Qed.

Lemma search_embedding_empty_index (E : env) (q : list float) (w : world) :
  collection w = ∅ → query_sound E w →
  ∃ w', ChromaService.search_embedding E q w = (Ok None, w')
        ∧ same_stores w w'.
Proof.
  intros Hempty Hsound. destruct (query E q) as [rs|e] eqn:Hq.
  - apply (search_embedding_no_candidates E q w rs Hq).
    destruct (ids rs) as [|[|id l] rest] eqn:Hids; [by left|right; by eauto|].
    destruct (Hsound q rs (id :: l) id Hq) as [entry Hentry].
    + rewrite Hids. by left.
    + by left.
    + rewrite Hempty, lookup_empty in Hentry. discriminate Hentry.
  - destruct (search_embedding_query_failed E q w e Hq)
      as (w' & e' & Hrun & Hsame & _). by eauto.
Qed.

Lemma search_embedding_nothing_found (E : env) (v : list float) (w : world) :
  nothing_to_find E v w →
  ∃ w', ChromaService.search_embedding E v w = (Ok None, w')
        ∧ same_stores w w'.
Proof.
  intros [[Hempty Hsound]|(rs & Hq & Hrs)].
  - by apply search_embedding_empty_index.
  - by apply (search_embedding_no_candidates E v w rs).
Qed.

(** Whether extraction succeeds does not depend on the state. *)
Lemma extract_embedding_ok_any (E : env) (path : pystr) (w w' : world)
    (v : list float) :
  (FaceService.extract_embedding E path w).1 = Ok v →
  FaceService.extract_embedding E path w' = (Ok v, w').
Proof.
  unfold FaceService.extract_embedding. unfold_M.
  intros H. repeat case_match; by simplify_eq/=.
Qed.

(** The search does not count as a storage call. *)
Lemma search_embedding_storage_deletes (E : env) (q : list float)
    (w w' : world) (r : option ChromaService.match_result) :
  ChromaService.search_embedding E q w = (Ok r, w') →
  storage_deletes w' = storage_deletes w.
Proof.
  intros Hrun.
  destruct (search_embedding_total E q w) as (r' & w'' & Hrun' & Hsame).
  rewrite Hrun in Hrun'. injection Hrun' as <- <-.
  by destruct Hsame as (_ & _ & _ & _ & _ & ?).
Qed.

(** The view on a probe whose search returns nothing, when the temporary
    file can be deleted. *)
Lemma verify_employee_search_none (E : env) (req : request) (w w2 : world)
    (p : pystr) (v : list float) :
  temp_acquired E req = Some p →
  storage_delete_works E w →
  (FaceService.extract_embedding E (os_path_join (MEDIA_ROOT E) p) w).1 = Ok v →
  ChromaService.search_embedding E v (set_files (λ fs, {[p]} ∪ fs) w)
    = (Ok None, w2) →
  Views.verify_employee E req w
    = (Ok no_match_response,
       count_storage_delete (set_files (λ fs, fs ∖ {[p]}) w2)).
Proof.
  unfold temp_acquired, storage_delete_works. intros Hacq Hdel Hext Hsearch.
  destruct (method req) eqn:Hm; [done|].
  destruct (form_is_valid req) eqn:Hv; [|done].
  destruct (storage_save E (py "temp/" ++ upload_name req)) as [p'|] eqn:Hs;
    [|done].
  injection Hacq as ->.
  pose proof (search_embedding_storage_deletes E v _ w2 None Hsearch) as Hn.
  cbn in Hn.
  unfold Views.verify_employee, Views.verify_probe, Views.default_storage_save,
    Views.default_storage_delete, Views.default_storage_exists,
    FaceService.embedding_to_list.
  rewrite Hm, Hv. unfold_M. rewrite Hs.
  rewrite (extract_embedding_ok_any E _ w _ v Hext), Hsearch.
  rewrite Hn, Hdel. simpl.
  rewrite bool_decide_eq_false_2 by set_solver. done.
Qed.



(** C6, as the claim states it, fails: with Jane Smith enrolled and the
    query raising, the view answers as it does on an empty index, and no
    error reaches the caller. *)
Lemma C6_query_failure_looks_like_no_match :
  (Views.verify_employee failing_query Example.post Example.enrolled_world).1
    = Ok no_match_response
  ∧ (Views.verify_employee failing_query Example.post Example.enrolled_world).1
    = (Views.verify_employee Example.quiet Example.post Example.empty_world).1
  ∧ flashed
      (Views.verify_employee failing_query Example.post
         Example.enrolled_world).2 = [].
Proof. split_and!; vm_compute; reflexivity. Qed.

(** C6 (amended): when an embedding is extracted from the probe (whose
    temporary file the storage can delete) and the nearest-neighbour query
    raises, [search_embedding] writes the error to the log and returns
    [None], and the view returns the no-match page -- the response it gives
    when there is nothing to find in the index; no error message is flashed
    and nothing is raised. *)
Theorem C6_query_failure_is_logged_as_no_match (E : env) (req : request)
    (w : world) (p : pystr) (v : list float) (e : exn) :
  temp_acquired E req = Some p →
  storage_delete_works E w →
  (FaceService.extract_embedding E (os_path_join (MEDIA_ROOT E) p) w).1 = Ok v →
  query E v = Raise e →
  (∃ (w' : world) (e' : exn),
     Views.verify_employee E req w = (Ok no_match_response, w')
     ∧ flashed w' = flashed w
     ∧ last (error_log w')
       = Some (LogError (py "Error searching ChromaDB: " ++ exn_str e'))
     ∧ (collection_available E w → e' = e))
  ∧ ∀ (E0 : env) (w0 : world) (p0 : pystr) (v0 : list float),
      temp_acquired E0 req = Some p0 →
      storage_delete_works E0 w0 →
      (FaceService.extract_embedding E0 (os_path_join (MEDIA_ROOT E0) p0) w0).1
        = Ok v0 →
      nothing_to_find E0 v0 w0 →
      (Views.verify_employee E0 req w0).1 = (Views.verify_employee E req w).1.
Proof.
  intros Hacq Hdel Hext Hq.
  destruct (search_embedding_query_failed E v
              (set_files (λ fs, {[p]} ∪ fs) w) e Hq)
    as (w2 & e' & Hsearch & (_ & _ & _ & Hfl & _) & Hlog & He').
  pose proof (verify_employee_search_none E req w w2 p v Hacq Hdel Hext
                Hsearch) as Hrun.
  split.
  - eexists _, e'. split_and!; [exact Hrun|by simpl in *|by simpl|done].
  - intros E0 w0 p0 v0 Hacq0 Hdel0 Hext0 Hnone0.
    destruct (search_embedding_nothing_found E0 v0
                (set_files (λ fs, {[p0]} ∪ fs) w0) Hnone0)
      as (w3 & Hsearch0 & _).
    rewrite (verify_employee_search_none E0 req w0 w3 p0 v0 Hacq0 Hdel0
               Hext0 Hsearch0).
    by rewrite Hrun.
Qed.

(** The query raises while Jane Smith is enrolled. *)
Lemma C6_query_failure_is_logged_as_no_match_witness :
  ∃ w' : world,
    Views.verify_employee failing_query Example.post Example.enrolled_world
      = (Ok no_match_response, w')
    ∧ last (error_log w')
      = Some (LogError (py "Error searching ChromaDB: hnsw index unavailable")).
Proof.
  destruct (C6_query_failure_is_logged_as_no_match failing_query Example.post
              Example.enrolled_world (py "temp/probe.jpg") [1; 0]%float
              Example.chroma_error)
    as ((w' & e' & Hrun & _ & Hlog & He') & _); [reflexivity..|].
  exists w'. split; [exact Hrun|].
  rewrite Hlog, He'; [reflexivity|]. by left.
Defined.

(* ===================================================================== *)
(** ** Verification: the temporary file *)
(* ===================================================================== *)

Lemma verify_after_search_files (E : env)
    (mr : option ChromaService.match_result) (w : world) :
  files (Views.verify_after_search E mr w).2 = files w.
Proof.
  unfold Views.verify_after_search, Views.objects_get. unfold_M.
  repeat case_match; by simplify_eq/=.
Qed.

(** The [try] ... [finally] statement ends with the temporary file
    removed, or with a [default_storage.delete] that raised: then the file
    stays and the statement raises what the last delete raised.  No other
    file is touched. *)
Lemma verify_probe_files (E : env) (p : pystr) (w : world) :
  files (Views.verify_probe E p w).2 = files w ∖ {[p]}
  ∨ (files (Views.verify_probe E p w).2 = files w
     ∧ ¬ storage_delete_works E w
     ∧ ∃ e n, storage_delete_fault E n = Some e
              ∧ (Views.verify_probe E p w).1 = Raise e).
Proof.
  unfold Views.verify_probe, Views.default_storage_delete,
    Views.default_storage_exists, FaceService.embedding_to_list,
    storage_delete_works.
  pose proof (extract_embedding_frame E (os_path_join (MEDIA_ROOT E) p) w)
    as (_ & _ & Hf1 & _ & _ & Hs1).
  unfold_M.
  destruct (FaceService.extract_embedding E (os_path_join (MEDIA_ROOT E) p) w)
    as [[v|e] w1]; simpl in Hf1, Hs1.
  - destruct (search_embedding_total E v w1)
      as (r & w2 & -> & (_ & _ & Hf2 & _ & _ & Hs2)).
    rewrite Hs2, Hs1.
    destruct (storage_delete_fault E (storage_deletes w)) as [e1|] eqn:Hd1.
    + cbn. case_bool_decide as Hin.
      * cbn. rewrite Hs2, Hs1.
        destruct (storage_delete_fault E (S (storage_deletes w)))
          as [e2|] eqn:Hd2; cbn.
        -- right. rewrite Hf2, Hf1. split_and!; [done|done|].
           by exists e2, (S (storage_deletes w)).
        -- left. by rewrite Hf2, Hf1.
      * cbn. left. rewrite Hf2, Hf1 in *. set_solver.
    + pose proof (verify_after_search_files E r
                    (count_storage_delete (set_files (λ fs, fs ∖ {[p]}) w2)))
        as Hf3.
      destruct (Views.verify_after_search E r
                  (count_storage_delete (set_files (λ fs, fs ∖ {[p]}) w2)))
        as [res w3]; cbn in Hf3. cbn.
      rewrite bool_decide_eq_false_2 by (rewrite Hf3; set_solver).
      cbn. left. by rewrite Hf3, Hf2, Hf1.
  - case_bool_decide as Hin.
    + cbn. rewrite Hs1.
      destruct (storage_delete_fault E (storage_deletes w)) as [e1|] eqn:Hd1;
        cbn.
      * right. rewrite Hf1. split_and!; [done|done|].
        by exists e1, (storage_deletes w).
      * left. by rewrite Hf1.
    + cbn. left. rewrite Hf1 in *. set_solver.
Qed.

Lemma verify_employee_except_files (e : exn) (w : world) :
  ∃ w', Views.verify_employee_except e w = (Ok None, w')
        ∧ files w' = files w
        ∧ flashed w' = flashed w ++ [(MsgError, verification_failure_text e)].
Proof.
  unfold Views.verify_employee_except, verification_failure_text. unfold_M.
  case_bool_decide; by eexists.
Qed.

(** C10, as the claim states it, fails: when the storage cannot delete the
    temporary file, the file is still there after the call, which answers
    with the form page and the error of the delete. *)
Lemma C10_failed_delete_leaves_temp_file :
  temp_acquired More.stuck_storage Example.post = Some (py "temp/probe.jpg")
  ∧ files (Views.verify_employee More.stuck_storage Example.post
             Example.enrolled_world).2
    = {[ py "temp/probe.jpg" ]}
  ∧ (Views.verify_employee More.stuck_storage Example.post
       Example.enrolled_world).1 = Ok verify_form_page
  ∧ flashed (Views.verify_employee More.stuck_storage Example.post
               Example.enrolled_world).2
    = [(MsgError,
        py "An error occurred during verification: [Errno 13] Permission denied")].
Proof. split_and!; vm_compute; reflexivity. Qed.

(** C10 (amended): every verification call returns a response, and when it
    stored the probe in a temporary file, that file is gone when it returns
    -- whether the view decided, extraction raised or the query failed --
    provided that the storage can delete it; no other file is touched.  The
    file outlives the call only when [default_storage.delete] raises: the
    view then answers with its form page and flashes the error of the
    delete. *)
Theorem C10_temp_file_released (E : env) (req : request) (w : world) :
  ∃ (resp : response) (w' : world),
    Views.verify_employee E req w = (Ok resp, w')
    ∧ match temp_acquired E req with
      | Some p =>
          (storage_delete_works E w →
           (p ∉ files w') ∧ files w' = files w ∖ {[p]})
          ∧ ((p ∉ files w') ∧ files w' = files w ∖ {[p]}
             ∨ (p ∈ files w') ∧ files w' = {[p]} ∪ files w
               ∧ ¬ storage_delete_works E w
               ∧ resp = verify_form_page
               ∧ ∃ e n, storage_delete_fault E n = Some e
                        ∧ last (flashed w')
                          = Some (MsgError, verification_failure_text e))
      | None => files w' = files w
      end.
Proof.
  unfold Views.verify_employee, temp_acquired, Views.default_storage_save.
  destruct (method req); [by eexists _, _|].
  destruct (form_is_valid req); [|by eexists _, _].
  unfold_M.
  destruct (storage_save E (py "temp/" ++ upload_name req)) as [p|e]; simpl.
  - pose proof (verify_probe_files E p (set_files (λ fs, {[p]} ∪ fs) w))
      as Hf.
    assert (∀ (resp : response) (w' : world),
              files w' = files (set_files (λ fs, {[p]} ∪ fs) w) ∖ {[p]} →
              (storage_delete_works E w →
               (p ∉ files w') ∧ files w' = files w ∖ {[p]})
              ∧ ((p ∉ files w') ∧ files w' = files w ∖ {[p]}
                 ∨ (p ∈ files w') ∧ files w' = {[p]} ∪ files w
                   ∧ ¬ storage_delete_works E w
                   ∧ resp = verify_form_page
                   ∧ ∃ e n, storage_delete_fault E n = Some e
                            ∧ last (flashed w')
                              = Some (MsgError, verification_failure_text e)))
      as Hgone.
    { intros resp w' Hw'. cbn in Hw'.
      assert ((p ∉ files w') ∧ files w' = files w ∖ {[p]}) as Hok
        by (rewrite Hw'; set_solver).
      split; [done|by left]. }
    destruct (Views.verify_probe E p (set_files (λ fs, {[p]} ∪ fs) w))
      as [[[resp|]|e] w1]; cbn [fst snd] in Hf.
    + eexists _, _. split; [done|]. apply Hgone.
      destruct Hf as [Hf|(_ & _ & e & n & _ & Hr)]; [done|discriminate Hr].
    + eexists _, _. split; [done|]. apply Hgone.
      destruct Hf as [Hf|(_ & _ & e & n & _ & Hr)]; [done|discriminate Hr].
    + destruct (verify_employee_except_files e w1) as (w2 & -> & Hf2 & Hfl2).
      eexists _, _. split; [done|]. cbn.
      destruct Hf as [Hf|(Hf & Hnot & e' & n & Hfault & Hr)].
      * apply Hgone. by rewrite Hf2, Hf.
      * injection Hr as <-. cbn in Hf. split; [done|]. right.
        rewrite Hf2, Hf. split_and!; [set_solver|done|done|done|].
        exists e, n. split; [done|]. by rewrite Hfl2, last_snoc.
  - destruct (verify_employee_except_files e w) as (w2 & -> & Hf2 & _).
    by eexists _, _.
Qed.

(** With Jane Smith enrolled and a storage that deletes, the probe of the
    examples is gone after the call. *)
Lemma C10_temp_file_released_witness :
  py "temp/probe.jpg"
  ∉ files (Views.verify_employee near_jane Example.post
             Example.enrolled_world).2.
Proof.
  destruct (C10_temp_file_released near_jane Example.post
              Example.enrolled_world) as (resp & w' & Hrun & Hfiles).
  rewrite Hrun. cbn [snd].
  change (temp_acquired near_jane Example.post)
    with (Some (py "temp/probe.jpg")) in Hfiles.
  destruct Hfiles as (Hgone & _). apply Hgone. reflexivity.
Defined.

(* ===================================================================== *)
(** ** Enrollment: the record and the embedding *)
(* ===================================================================== *)

Lemma employee_delete_cases (E : env) (employee : Employee) (w : world) :
  match Views.employee_delete E employee w with
  | (Ok _, w') =>
      employees w' = delete (uuid employee) (employees w)
      ∧ collection w' = collection w
  | (Raise e, w') =>
      (∃ n, db_delete_fault E n = Some e)
      ∧ employees w' = employees w ∧ collection w' = collection w
  end.
Proof.
  unfold Views.employee_delete.
  destruct (db_delete_fault E (db_deletes w)) eqn:Hfault; simpl; eauto.
Qed.

(** The [except] clauses when [employee] is bound: the record is deleted,
    or the delete raises, the exception leaves the view and the record
    stays. *)
Lemma add_employee_except_bound (E : env) (employee : Employee) (e : exn)
    (w : world) :
  match Views.add_employee_except E (Some employee) e w with
  | (Ok r, w') =>
      r = None
      ∧ employees w' = delete (uuid employee) (employees w)
      ∧ collection w' = collection w
  | (Raise e', w') =>
      (∃ n, db_delete_fault E n = Some e')
      ∧ employees w' = employees w ∧ collection w' = collection w
  end.
Proof.
  unfold Views.add_employee_except, Views.delete_if_bound.
  pose proof (employee_delete_cases E employee w) as Hd. unfold_M.
  case_bool_decide;
    destruct (Views.employee_delete E employee w) as [[[]|e'] w1];
    simpl; naive_solver.
Qed.

Lemma add_employee_except_unbound (E : env) (e : exn) (w : world) :
  ∃ w', Views.add_employee_except E None e w = (Ok None, w')
        ∧ employees w' = employees w ∧ collection w' = collection w
        ∧ files w' = files w.
Proof.
  unfold Views.add_employee_except, Views.delete_if_bound. unfold_M.
  case_bool_decide; by eexists.
Qed.

(** [form.save()]: the photo cannot be stored, or it is stored and the
    insert raises, or the row of the form is in the table. *)
Lemma form_save_cases (E : env) (form : employee_form) (w : world) :
  Views.form_save E form w
  = match photo_stored E form with
    | Raise e => (Raise e, w)
    | Ok photo =>
        match db_save_fault E with
        | Some e => (Raise e, set_files (λ fs, {[photo]} ∪ fs) w)
        | None =>
            (Ok (new_employee E form photo),
             set_employees (insert (uuid4 E) (new_employee E form photo))
               (set_files (λ fs, {[photo]} ∪ fs) w))
        end
    end.
Proof.
  unfold Views.form_save, Views.default_storage_save, photo_stored,
    photo_upload, new_employee.
  unfold_M. destruct (storage_save E _) as [photo|e]; [|done].
  by destruct (db_save_fault E).
Qed.

(** The [try] statement once the record is saved: it returns the redirect
    with the embedding stored, or falls through with the record deleted and
    the collection as it was, or a compensating delete raised and the
    record is still there, without an embedding. *)
Lemma add_employee_saved_cases (E : env) (employee : Employee) (w : world) :
  collection w !! uuid employee = None →
  match try_except (Views.add_employee_saved E employee)
          (Views.add_employee_except E (Some employee)) w with
  | (Ok (Some resp), w') =>
      resp = Redirect (py "home")
      ∧ employees w' = employees w
      ∧ ∃ entry, collection w' = <[uuid employee := entry]> (collection w)
  | (Ok None, w') =>
      employees w' = delete (uuid employee) (employees w)
      ∧ collection w' = collection w
  | (Raise e, w') =>
      (∃ n, db_delete_fault E n = Some e)
      ∧ employees w' = employees w ∧ collection w' = collection w
  end.
Proof.
  intros Hfree. unfold try_except, Views.add_employee_saved.
  pose proof (extract_embedding_frame E (image_path employee) w)
    as (He1 & Hc1 & _).
  unfold mbind at 1. unfold M_bind at 1.
  destruct (FaceService.extract_embedding E (image_path employee) w)
    as [[v|e] w1]; simpl in He1, Hc1.
  - unfold FaceService.embedding_to_list.
    unfold mbind at 1. unfold M_bind at 1.
    destruct (add_employee_embedding_spec E (uuid employee) v
      (<[py "full_name" := PStr (full_name employee)]>
       (<[py "employer" := PStr (employer_name employee)]>
        (<[py "reputation_score" := PFloat (reputation_score employee)]> ∅)))
      w1) as (success & w2 & -> & He2 & _ & _ & _ & Hc2 & _).
    rewrite Hc1, Hfree in Hc2. destruct success.
    + unfold_M. simpl. split_and!; [done|congruence|by eexists].
    + pose proof (employee_delete_cases E employee w2) as Hd.
      unfold mbind at 1. unfold M_bind at 1.
      destruct (Views.employee_delete E employee w2) as [[[]|e] w3].
      * unfold_M. simpl. destruct Hd as [-> ->]. split; congruence.
      * destruct Hd as (_ & He3 & Hc3).
        pose proof (add_employee_except_bound E employee e w3) as Hx.
        destruct (Views.add_employee_except E (Some employee) e w3)
          as [[r|e'] w4].
        -- destruct Hx as (-> & -> & ->). split; congruence.
        -- destruct Hx as (Hn & -> & ->). split_and!; [done|congruence..].
  - pose proof (add_employee_except_bound E employee e w1) as Hx.
    destruct (Views.add_employee_except E (Some employee) e w1)
      as [[r|e'] w4].
    + destruct Hx as (-> & -> & ->). split; congruence.
    + destruct Hx as (Hn & -> & ->). split_and!; [done|congruence..].
Qed.

(** C1, as the claim states it, fails: when extraction fails and the
    compensating delete raises, the view raises too, and the record of the
    failed enrollment stays in the table without an embedding: a get on the
    attempted key finds it. *)
Lemma C1_failed_compensation_leaves_record :
  (Views.add_employee faceless_locked Example.post Example.empty_world).1
    = Raise Example.db_error
  ∧ employees
      (Views.add_employee faceless_locked Example.post Example.empty_world).2
      !! Example.an_id = Some Example.jane_record
  ∧ collection
      (Views.add_employee faceless_locked Example.post Example.empty_world).2
      !! Example.an_id = None.
Proof. split_and!; vm_compute; reflexivity. Qed.

(** C1 (amended): from a state in which the ids with a record are the ids
    with an embedding, and with a fresh key for the new row, every
    enrollment call that returns leaves the stores in such a state: after
    the redirect of a success the new record and its embedding are both
    stored; after the form page of a failure (at record creation, at
    extraction, at the index write) the record store has no record under
    the attempted key, the index has no embedding under it, and both stores
    are as before.  The call does not return only when a compensating
    delete itself raises: then it raises what the delete raised, and the
    new record is left in the table with no embedding in the index. *)
Theorem C1_enrollment_atomic (E : env) (req : request) (w : world) :
  stores_consistent w →
  employees w !! uuid4 E = None →
  match Views.add_employee E req w with
  | (Ok resp, w') =>
      stores_consistent w'
      ∧ (is_Some (employees w' !! uuid4 E)
         ↔ is_Some (collection w' !! uuid4 E))
      ∧ match resp with
        | Redirect _ =>
            is_Some (employees w' !! uuid4 E)
            ∧ is_Some (collection w' !! uuid4 E)
        | Render _ _ =>
            employees w' !! uuid4 E = None
            ∧ collection w' !! uuid4 E = None
            ∧ employees w' = employees w ∧ collection w' = collection w
        end
  | (Raise e, w') =>
      (∃ n, db_delete_fault E n = Some e)
      ∧ (∃ photo,
           photo_stored E (cleaned_data req) = Ok photo
           ∧ employees w'
             = <[uuid4 E := new_employee E (cleaned_data req) photo]>
                 (employees w))
      ∧ collection w' = collection w
      ∧ is_Some (employees w' !! uuid4 E)
      ∧ collection w' !! uuid4 E = None
  end.
Proof.
  unfold stores_consistent. intros Hcons Hfresh.
  assert (collection w !! uuid4 E = None) as Hfree.
  { apply not_elem_of_dom. rewrite <- Hcons. by apply not_elem_of_dom. }
  assert (∀ w', employees w' = employees w → collection w' = collection w →
          dom (employees w') = dom (collection w')
          ∧ (is_Some (employees w' !! uuid4 E)
             ↔ is_Some (collection w' !! uuid4 E))
          ∧ employees w' !! uuid4 E = None
          ∧ collection w' !! uuid4 E = None
          ∧ employees w' = employees w ∧ collection w' = collection w)
    as Hunchanged.
  { intros w' -> ->. rewrite Hfresh, Hfree. by split_and!. }
  unfold Views.add_employee.
  destruct (method req); [unfold_M; simpl; by apply Hunchanged|].
  destruct (form_is_valid req); [|unfold_M; simpl; by apply Hunchanged].
  unfold Views.try_except_bound.
  unfold mbind at 1. unfold M_bind at 1.
  rewrite form_save_cases.
  destruct (photo_stored E (cleaned_data req)) as [photo|e] eqn:Hphoto.
  2:{ destruct (add_employee_except_unbound E e w) as (w' & -> & He & Hc & _).
      unfold_M. simpl. by apply Hunchanged. }
  destruct (db_save_fault E) as [e|].
  - destruct (add_employee_except_unbound E e
                (set_files (λ fs, {[photo]} ∪ fs) w))
      as (w' & -> & He & Hc & _).
    unfold_M. simpl. by apply Hunchanged.
  - set (employee := new_employee E (cleaned_data req) photo).
    set (w1 := set_employees (insert (uuid4 E) employee)
                 (set_files (λ fs, {[photo]} ∪ fs) w)).
    pose proof (add_employee_saved_cases E employee w1 Hfree) as Hsaved.
    destruct (try_except (Views.add_employee_saved E employee)
                (Views.add_employee_except E (Some employee)) w1)
      as [[[resp|]|e] w2].
    + destruct Hsaved as (-> & He & entry & Hc). unfold_M. simpl in *.
      rewrite He, Hc, !dom_insert_L, Hcons, !lookup_insert_eq.
      split_and!; try done; by eexists.
    + destruct Hsaved as (He & Hc). unfold_M. simpl in *.
      rewrite delete_insert_eq, delete_id in He by done.
      by apply Hunchanged.
    + destruct Hsaved as (Hn & He & Hc). simpl in *.
      rewrite He, Hc, lookup_insert_eq. split_and!; try done.
      by exists photo.
Qed.

(** An enrollment whose photo shows no face, into the empty stores. *)
Lemma C1_enrollment_atomic_witness :
  ∃ (template : pystr) (ctx : context) (w' : world),
    Views.add_employee faceless Example.post Example.empty_world
      = (Ok (Render template ctx), w')
    ∧ employees w' !! Example.an_id = None
    ∧ collection w' !! Example.an_id = None.
Proof.
  pose proof (C1_enrollment_atomic faceless Example.post Example.empty_world
                eq_refl eq_refl) as H.
  destruct (Views.add_employee faceless Example.post Example.empty_world)
    as [[[to|template ctx]|e] w'] eqn:Hrun.
  - vm_compute in Hrun. discriminate Hrun.
  - exists template, ctx, w'. split; [reflexivity|].
    destruct H as (_ & _ & Hnone & Hfree & _). split; [exact Hnone|exact Hfree].
  - vm_compute in Hrun. discriminate Hrun.
Defined.

(* ===================================================================== *)
(** ** Extraction: when it succeeds and what it raises *)
(* ===================================================================== *)

(** What a returned vector tells about the file and about DeepFace. *)
Lemma extract_embedding_ok_inv (E : env) (path : pystr) (w : world)
    (v : list float) :
  (FaceService.extract_embedding E path w).1 = Ok v →
  path_exists E path = true
  ∧ ∃ f, represent E path = Ok [f] ∧ normalize E (face_embedding f) = Ok v.
Proof.
  unfold FaceService.extract_embedding. unfold_M.
  destruct (path_exists E path); simpl; [|done].
  destruct (represent E path) as [[|f [|f' fs]]|e]; simpl;
    repeat case_bool_decide; simpl in *; try lia; try done.
  destruct (normalize E (face_embedding f)) as [v'|e] eqn:Hn; simpl;
    repeat case_bool_decide; simpl; try done.
  intros [= <-]. split; [done|]. by exists f.
Qed.

(** X1: [extract_embedding] returns a vector exactly when the file
    exists, DeepFace returns exactly one face and scikit-learn normalises
    its embedding without raising; the vector is that normalised embedding,
    and the call then changes nothing.  In particular, when the
    normalisation raises (a [ValueError] for an embedding that holds a NaN
    or an infinity), the caller gets the no-face error. *)
Theorem extract_embedding_succeeds_iff (E : env) (path : pystr) (w : world)
    (v : list float) :
  ((FaceService.extract_embedding E path w).1 = Ok v
   ↔ path_exists E path = true
     ∧ ∃ f, represent E path = Ok [f]
            ∧ normalize E (face_embedding f) = Ok v)
  ∧ ((FaceService.extract_embedding E path w).1 = Ok v →
     (FaceService.extract_embedding E path w).2 = w)
  ∧ (∀ f e, path_exists E path = true → represent E path = Ok [f] →
       normalize E (face_embedding f) = Raise e →
       exn_class_of e = ValueError →
       (FaceService.extract_embedding E path w).1
       = Raise (FaceService.face_error
           (py "No face detected in the image. Please provide a clear face photo."))).
Proof.
  split_and!.
  - split; [apply extract_embedding_ok_inv|].
    unfold FaceService.extract_embedding. unfold_M.
    intros (-> & f & -> & ->). by simpl.
  - intros H.
    by rewrite (extract_embedding_ok_any E path w w v H).
  - intros f e Hex Hrep Hnorm Hclass.
    unfold FaceService.extract_embedding. unfold_M.
    rewrite Hex, Hrep. simpl. rewrite Hnorm. simpl.
    by rewrite bool_decide_eq_true_2.
Qed.

(** X2: whatever goes wrong, the exception that leaves [extract_embedding]
    is a [FaceRecognitionError]; for a missing file its text names the
    path and nothing is logged; when DeepFace raises a [ValueError] its
    text is the fixed no-face message, whatever DeepFace said. *)
Theorem extract_embedding_raises_face_errors (E : env) (path : pystr)
    (w : world) (e : exn) :
  (FaceService.extract_embedding E path w).1 = Raise e →
  exn_class_of e = FaceRecognitionError
  ∧ (path_exists E path = false →
     exn_str e = py "Image file not found: " ++ path
     ∧ (FaceService.extract_embedding E path w).2 = w)
  ∧ (∀ e0, path_exists E path = true → represent E path = Raise e0 →
     exn_class_of e0 = ValueError →
     exn_str e
     = py "No face detected in the image. Please provide a clear face photo.").
Proof.
  unfold FaceService.extract_embedding. unfold_M.
  destruct (path_exists E path); simpl.
  - destruct (represent E path) as [[|f [|f' fs]]|e0]; simpl;
      try (destruct (normalize E (face_embedding f)) as [v'|e']; simpl);
      repeat case_bool_decide; simpl in *; try lia; try done;
      intros [= <-]; split_and!; try done.
    intros e1 _ [= <-] Hc. by destruct H.
  - intros [= <-]. split_and!; try done.
Qed.

(** The probe of the examples shows one face. *)
Lemma extract_embedding_succeeds_iff_witness :
  (FaceService.extract_embedding Example.quiet (py "/srv/media/temp/probe.jpg")
     Example.empty_world).2 = Example.empty_world.
Proof.
  apply (proj1 (proj2 (extract_embedding_succeeds_iff Example.quiet
                         (py "/srv/media/temp/probe.jpg") Example.empty_world
                         [1; 0]%float))).
  reflexivity.
Defined.

(** DeepFace raises a [ValueError] with its own text. *)
Lemma extract_embedding_raises_face_errors_witness :
  exn_class_of
    (FaceService.face_error
       (py "No face detected in the image. Please provide a clear face photo."))
  = FaceRecognitionError.
Proof.
  apply (extract_embedding_raises_face_errors faceless
           (py "/srv/media/temp/probe.jpg") Example.empty_world).
  reflexivity.
Defined.

(** X3: [validate_image] never raises and changes nothing; it reports the
    image valid exactly when DeepFace returns one face, its message is
    ["Image is valid."] exactly then, and when DeepFace raises it reports
    no face and the text of the exception. *)
Theorem validate_image_verdict (X : env_ext) (path : pystr) (w : world) :
  ∃ r : FaceService.validation,
    FaceService.validate_image X path w = (Ok r, w)
    ∧ (FaceService.valid r = true ↔ extract_faces X path = Ok 1%nat)
    ∧ (FaceService.message r = py "Image is valid."
       ↔ FaceService.valid r = true)
    ∧ (∀ n, extract_faces X path = Ok n → FaceService.face_count r = n)
    ∧ (∀ e, extract_faces X path = Raise e →
       FaceService.face_count r = 0%nat
       ∧ FaceService.message r = py "Face detection failed: " ++ exn_str e).
Proof.
  unfold FaceService.validate_image. unfold_M.
  destruct (extract_faces X path) as [n|e]; eexists; (split; [done|]);
    cbn [FaceService.valid FaceService.message FaceService.face_count].
  - unfold FaceService._get_validation_message.
    destruct n as [|[|n]]; repeat case_bool_decide; try lia;
      split_and!; try done; try (by intros ? [= <-]).
  - split_and!; try done; by intros ? [= <-].
Qed.

(* ===================================================================== *)
(** ** The collection handle *)
(* ===================================================================== *)

(** The handle is obtained and cached, or the call raises and no handle is
    cached; the stores are untouched either way. *)
Lemma get_collection_cases (E : env) (w : world) :
  (∃ w', ChromaService._get_collection E w = (Ok (), w')
         ∧ same_stores w w' ∧ chroma_collection w' = true
         ∧ error_log w' = error_log w)
  ∨ (∃ e w', ChromaService._get_collection E w = (Raise e, w')
             ∧ same_stores w w' ∧ chroma_collection w' = false
             ∧ last (error_log w')
               = Some (LogError (py "Error getting collection: " ++ exn_str e))).
Proof.
  unfold ChromaService._get_collection, ChromaService._get_client. unfold_M.
  destruct (chroma_collection w) eqn:Hc.
  { left. eexists. by unfold same_stores. }
  destruct (chroma_client w) eqn:Hcl;
    destruct (client_fault E) as [e1|]; destruct (create_collection_fault E)
      as [e2|]; cbn [fst snd];
    first [ left; eexists; split; [reflexivity|]; by unfold same_stores
          | right; eexists _, _; split; [reflexivity|]; unfold same_stores;
            cbn; rewrite ?Hc, ?last_snoc; by split_and! ].
Qed.

(** X4: once [_get_collection] has returned, the handle is cached: every
    later call returns at once, whatever the client would do now, and
    changes nothing. *)
Theorem get_collection_cached (E : env) (w w' : world) :
  ChromaService._get_collection E w = (Ok (), w') →
  chroma_collection w' = true
  ∧ ∀ E' : env, ChromaService._get_collection E' w' = (Ok (), w').
Proof.
  intros Hrun.
  destruct (get_collection_cases E w)
    as [(w1 & Hg & _ & Hc & _)|(e & w1 & Hg & _)]; rewrite Hrun in Hg;
    [|discriminate Hg].
  injection Hg as <-. split; [done|]. intros E'.
  unfold ChromaService._get_collection. by rewrite Hc.
Qed.

(** The first call of a process, then a call while the client is broken. *)
Lemma get_collection_cached_witness :
  ChromaService._get_collection More.unreachable
    (ChromaService._get_collection Example.quiet Example.empty_world).2
  = (Ok (), (ChromaService._get_collection Example.quiet Example.empty_world).2).
Proof.
  apply (get_collection_cached Example.quiet Example.empty_world).
  reflexivity.
Defined.



(* ===================================================================== *)
(** ** Deleting, updating and counting embeddings *)
(* ===================================================================== *)

(** X6: while the collection cannot be obtained, every operation of the
    service fails softly: the write, the delete and the update return
    [False], the search returns [None], the statistics report the error
    with a count of zero; none raises and none touches the stores. *)
Theorem unreachable_collection_fails_soft (E : env) (X : env_ext) (w w1 : world)
    (e : exn) (id : pystr) (embedding : list float)
    (metadata : gmap pystr pyvalue) :
  ChromaService._get_collection E w = (Raise e, w1) →
  (ChromaService.add_employee_embedding E id embedding metadata w).1 = Ok false
  ∧ (ChromaService.delete_employee_embedding E X id w).1 = Ok false
  ∧ (ChromaService.update_employee_embedding E X id embedding metadata w).1
    = Ok false
  ∧ (ChromaService.search_embedding E embedding w).1 = Ok None
  ∧ (ChromaService.get_collection_stats E X w).1
    = Ok (ChromaService.CollectionStats (py "employee_faces") 0 (py "error")
            (Some (exn_str e)))
  ∧ same_stores w (ChromaService.add_employee_embedding E id embedding
                     metadata w).2
  ∧ same_stores w (ChromaService.delete_employee_embedding E X id w).2
  ∧ same_stores w (ChromaService.update_employee_embedding E X id embedding
                     metadata w).2
  ∧ same_stores w (ChromaService.search_embedding E embedding w).2
  ∧ same_stores w (ChromaService.get_collection_stats E X w).2.
Proof.
  intros Hg. pose proof (get_collection_frame E w) as Hf.
  rewrite Hg in Hf. simpl in Hf.
  unfold ChromaService.add_employee_embedding,
    ChromaService.delete_employee_embedding,
    ChromaService.update_employee_embedding,
    ChromaService.search_embedding, ChromaService.get_collection_stats.
  unfold_M. rewrite Hg. cbn [fst snd]. split_and!; try done.
Qed.

(** No client, no cached handle: the five operations. *)
Lemma unreachable_collection_fails_soft_witness :
  (ChromaService.search_embedding More.unreachable [1; 0]%float
     Example.empty_world).1 = Ok None
  ∧ (ChromaService.delete_employee_embedding More.unreachable More.calm
       Example.an_id Example.empty_world).1 = Ok false.
Proof.
  destruct (unreachable_collection_fails_soft More.unreachable More.calm
              Example.empty_world
              (ChromaService._get_collection More.unreachable
                 Example.empty_world).2
              Example.chroma_error Example.an_id [1; 0]%float ∅)
    as (_ & Hdelete & _ & Hsearch & _); [reflexivity|].
  split; [exact Hsearch | exact Hdelete].
Defined.

(** The effect of [delete_employee_embedding] on the two stores. *)
Lemma delete_employee_embedding_stores (E : env) (X : env_ext) (id : pystr)
    (w : world) :
  ∃ (success : bool) (w' : world),
    ChromaService.delete_employee_embedding E X id w = (Ok success, w')
    ∧ employees w' = employees w
    ∧ collection w'
      = (if success then delete id (collection w) else collection w).
Proof.
  unfold ChromaService.delete_employee_embedding,
    ChromaService.collection_delete.
  destruct (get_collection_cases E w)
    as [(w1 & Hg & (He & Hc & _) & _)|(e & w1 & Hg & (He & Hc & _) & _)];
    unfold_M; rewrite Hg.
  - destruct (delete_fault X) as [e|].
    + eexists false, _. split; [reflexivity|]. by cbn.
    + eexists true, _. split; [reflexivity|]. cbn. by rewrite Hc.
  - eexists false, _. split; [reflexivity|]. by cbn.
Qed.

(** X7: [delete_employee_embedding] never raises and never touches the
    Employee table; when it returns [True] the id has no entry and every
    other entry is as before (an id that had no entry is no error), and
    when it returns [False] the collection is unchanged.  With the
    collection reachable it returns [True] exactly when
    [collection.delete] does not raise. *)
Theorem delete_employee_embedding_spec (E : env) (X : env_ext) (id : pystr)
    (w : world) :
  ∃ (success : bool) (w' : world),
    ChromaService.delete_employee_embedding E X id w = (Ok success, w')
    ∧ employees w' = employees w ∧ files w' = files w
    ∧ flashed w' = flashed w
    ∧ collection w'
      = (if success then delete id (collection w) else collection w)
    ∧ (success = true → collection w' !! id = None)
    ∧ (success = true → collection w !! id = None →
       collection w' = collection w)
    ∧ (collection_available E w → (success = true ↔ delete_fault X = None)).
Proof.
  unfold ChromaService.delete_employee_embedding,
    ChromaService.collection_delete.
  destruct (get_collection_cases E w)
    as [(w1 & Hg & (He & Hc & Hfi & Hfl & _) & _)
       |(e & w1 & Hg & (He & Hc & Hfi & Hfl & _) & _)];
    unfold_M; rewrite Hg.
  - destruct (delete_fault X) as [e|] eqn:Hfault.
    + eexists false, _. split; [reflexivity|]. cbn. split_and!; try done.
    + eexists true, _. split; [reflexivity|]. cbn. rewrite Hc.
      split_and!; try done.
      * intros _. apply lookup_delete_eq.
      * intros _ Hnone. by apply delete_id.
  - eexists false, _. split; [reflexivity|]. cbn. split_and!; try done.
    intros Hav. destruct (get_collection_ok E w Hav) as (w2 & Hg2 & _).
    rewrite Hg in Hg2. discriminate Hg2.
Qed.

(** Jane Smith's embedding is deleted. *)
Lemma delete_employee_embedding_spec_witness :
  collection
    (ChromaService.delete_employee_embedding Example.quiet More.calm
       Example.an_id Example.enrolled_world).2 !! Example.an_id = None.
Proof.
  destruct (delete_employee_embedding_spec Example.quiet More.calm
              Example.an_id Example.enrolled_world)
    as (success & w' & Hrun & _ & _ & _ & _ & Hgone & _ & Hiff).
  rewrite Hrun. cbn [snd]. apply Hgone. apply Hiff; [by left|reflexivity].
Defined.

(** X8: writing an embedding under an id that had none and deleting it
    again gives back the collection as it was. *)
Theorem add_then_delete_restores (E : env) (X : env_ext) (id : pystr)
    (embedding : list float) (metadata : gmap pystr pyvalue)
    (w w1 w2 : world) :
  collection w !! id = None →
  ChromaService.add_employee_embedding E id embedding metadata w
    = (Ok true, w1) →
  ChromaService.delete_employee_embedding E X id w1 = (Ok true, w2) →
  collection w2 = collection w ∧ employees w2 = employees w.
Proof.
  intros Hfree Hadd Hdel.
  destruct (add_employee_embedding_spec E id embedding metadata w)
    as (b & w1' & Hadd' & He1 & _ & _ & _ & Hc1 & _).
  rewrite Hadd in Hadd'. injection Hadd' as <- <-. rewrite Hfree in Hc1.
  destruct (delete_employee_embedding_stores E X id w1)
    as (b & w2' & Hdel' & He2 & Hc2).
  rewrite Hdel in Hdel'. injection Hdel' as <- <-.
  split; [|congruence].
  rewrite Hc2, Hc1, delete_insert_eq. by apply delete_id.
Qed.

(** An embedding written into the empty collection and deleted again. *)
Lemma add_then_delete_restores_witness :
  collection
    (ChromaService.delete_employee_embedding Example.quiet More.calm
       Example.an_id
       (ChromaService.add_employee_embedding Example.quiet Example.an_id
          [1; 0]%float jane_metadata Example.empty_world).2).2
  = ∅.
Proof.
  apply (add_then_delete_restores Example.quiet More.calm Example.an_id
           [1; 0]%float jane_metadata Example.empty_world
           (ChromaService.add_employee_embedding Example.quiet Example.an_id
              [1; 0]%float jane_metadata Example.empty_world).2);
    vm_compute; reflexivity.
Defined.

(** X9: [update_employee_embedding] never raises, never touches another
    id and never creates an entry: on an id that has none the collection
    stays as it is.  When it returns [True] on a stored id, the entry has
    the new embedding, every key of the given metadata holds its cleaned
    value, and a key that was not given is absent or keeps its old value;
    when it returns [False] the collection is unchanged. *)
Theorem update_employee_embedding_spec (E : env) (X : env_ext) (id : pystr)
    (embedding : list float) (metadata : gmap pystr pyvalue) (w : world) :
  ∃ (success : bool) (w' : world),
    ChromaService.update_employee_embedding E X id embedding metadata w
      = (Ok success, w')
    ∧ employees w' = employees w
    ∧ (∀ other, other ≠ id → collection w' !! other = collection w !! other)
    ∧ (collection w !! id = None → collection w' = collection w)
    ∧ (success = false → collection w' = collection w)
    ∧ (∀ old, success = true → collection w !! id = Some old →
       ∃ stored : gmap pystr pystr,
         collection w' !! id = Some (embedding, stored)
         ∧ (∀ key value, metadata !! key = Some value →
            stored !! key = Some (ChromaService.clean_value E value))
         ∧ (∀ key, metadata !! key = None →
            stored !! key = None ∨ stored !! key = old.2 !! key)).
Proof.
  unfold ChromaService.update_employee_embedding,
    ChromaService.collection_update.
  change (map_fold _ ∅ metadata) with (ChromaService.clean_metadata E metadata).
  destruct (get_collection_cases E w)
    as [(w1 & Hg & (He & Hc & _) & _)|(e & w1 & Hg & (He & Hc & _) & _)];
    unfold_M; rewrite Hg;
    [|eexists false, _; split; [reflexivity|]; cbn; rewrite Hc;
      by split_and!].
  destruct (update_fault X) as [e|];
    [eexists false, _; split; [reflexivity|]; cbn; rewrite Hc;
     by split_and!|].
  rewrite Hc. destruct (collection w !! id) as [old|] eqn:Hold.
  - eexists true, _. split; [reflexivity|]. cbn. rewrite Hc.
    split_and!; try done.
    + intros other Hne. by rewrite lookup_insert_ne.
    + intros old' _ [= <-]. eexists. split; [apply lookup_insert_eq|].
      cbn. split.
      * intros key value Hkey.
        assert (ChromaService.clean_metadata E metadata !! key
                = Some (ChromaService.clean_value E value)) as Hclean
          by (by rewrite clean_metadata_lookup, Hkey).
        destruct (update_metadata X); [|done].
        rewrite lookup_union_l'; [done|by eexists].
      * intros key Hkey.
        assert (ChromaService.clean_metadata E metadata !! key = None)
          as Hclean by (by rewrite clean_metadata_lookup, Hkey).
        destruct (update_metadata X); [right|by left].
        by apply lookup_union_r.
  - destruct (update_missing X) as [e|];
      eexists _, _; (split; [reflexivity|]); cbn; rewrite Hc; by split_and!.
Qed.

(** Jane Smith's entry gets a new embedding and a new name. *)
Lemma update_employee_embedding_spec_witness :
  ∃ stored : gmap pystr pystr,
    collection
      (ChromaService.update_employee_embedding Example.quiet More.calm
         Example.an_id [0; 1]%float {[ py "full_name" := PStr (py "J. Smith") ]}
         Example.enrolled_world).2 !! Example.an_id
    = Some ([0; 1]%float, stored)
    ∧ stored !! py "full_name" = Some (py "J. Smith").
Proof.
  destruct (update_employee_embedding_spec Example.quiet More.calm
              Example.an_id [0; 1]%float
              {[ py "full_name" := PStr (py "J. Smith") ]}
              Example.enrolled_world)
    as (success & w' & Hrun & _ & _ & _ & _ & Hstored).
  assert (success = true) as -> by (vm_compute in Hrun; congruence).
  destruct (Hstored Example.jane_entry eq_refl)
    as (stored & Hentry & Hkeys & _); [vm_compute; reflexivity|].
  exists stored. rewrite Hrun. split; [exact Hentry|].
  apply (Hkeys (py "full_name") (PStr (py "J. Smith"))).
  vm_compute. reflexivity.
Defined.

(** The write, when it reports success, has the handle cached. *)
Lemma add_employee_embedding_caches (E : env) (id : pystr)
    (embedding : list float) (metadata : gmap pystr pyvalue) (w w' : world) :
  ChromaService.add_employee_embedding E id embedding metadata w
    = (Ok true, w') →
  chroma_collection w' = true.
Proof.
  unfold ChromaService.add_employee_embedding, ChromaService.collection_add.
  destruct (get_collection_cases E w)
    as [(w1 & Hg & _ & Hcached & _)|(e & w1 & Hg & _)];
    unfold_M; rewrite Hg; [|by intros [=]].
  intros H. repeat case_match; by simplify_eq/=.
Qed.

(** The two reports of [get_collection_stats]. *)
Lemma get_collection_stats_cases (E : env) (X : env_ext) (w : world) :
  ∃ (stats : ChromaService.collection_stats) (w' : world),
    ChromaService.get_collection_stats E X w = (Ok stats, w')
    ∧ same_stores w w'
    ∧ ((ChromaService.stats_status stats = py "healthy"
        ∧ ChromaService.total_embeddings stats = size (collection w))
       ∨ (ChromaService.stats_status stats = py "error"
          ∧ ChromaService.total_embeddings stats = 0%nat))
    ∧ (collection_available E w → count_fault X = None →
       ChromaService.stats_status stats = py "healthy").
Proof.
  unfold ChromaService.get_collection_stats, ChromaService.collection_count.
  destruct (get_collection_cases E w)
    as [(w1 & Hg & Hs & _)|(e & w1 & Hg & Hs & _)];
    unfold_M; rewrite Hg.
  - pose proof Hs as (_ & Hc & _).
    destruct (count_fault X) as [e|] eqn:Hfault.
    + eexists _, _. split; [reflexivity|]. cbn. split_and!; try done.
      by right.
    + eexists _, _. split; [reflexivity|]. cbn. split_and!; try done.
      left. by rewrite Hc.
  - eexists _, _. split; [reflexivity|]. cbn. split_and!; try done.
    + by right.
    + intros Hav. destruct (get_collection_ok E w Hav) as (w2 & Hg2 & _).
      rewrite Hg in Hg2. discriminate Hg2.
Qed.

(** X10: [get_collection_stats] never raises and changes no store; it
    reports either [healthy] with the number of stored entries, or [error]
    with a count of zero and the text of the exception, which it also
    logs; with the collection reachable and [count] not raising it
    reports [healthy]. *)
Theorem get_collection_stats_spec (E : env) (X : env_ext) (w : world) :
  ∃ (stats : ChromaService.collection_stats) (w' : world),
    ChromaService.get_collection_stats E X w = (Ok stats, w')
    ∧ same_stores w w'
    ∧ ChromaService.stats_collection_name stats = py "employee_faces"
    ∧ ((ChromaService.stats_status stats = py "healthy"
        ∧ ChromaService.total_embeddings stats = size (collection w)
        ∧ ChromaService.stats_error stats = None
        ∧ error_log w' = error_log w)
       ∨ (ChromaService.stats_status stats = py "error"
          ∧ ChromaService.total_embeddings stats = 0%nat
          ∧ ∃ e, ChromaService.stats_error stats = Some (exn_str e)
                 ∧ last (error_log w')
                   = Some (LogError (py "Error getting collection stats: "
                                     ++ exn_str e))))
    ∧ (collection_available E w → count_fault X = None →
       ChromaService.stats_status stats = py "healthy").
Proof.
  unfold ChromaService.get_collection_stats, ChromaService.collection_count.
  destruct (get_collection_cases E w)
    as [(w1 & Hg & Hs & _ & Hlog)|(e & w1 & Hg & Hs & _)];
    unfold_M; rewrite Hg.
  - pose proof Hs as (_ & Hc & _).
    destruct (count_fault X) as [e|] eqn:Hfault.
    + eexists _, _. split; [reflexivity|]. cbn. split_and!; try done.
      right. split_and!; try done. exists e. by rewrite last_snoc.
    + eexists _, _. split; [reflexivity|]. cbn. split_and!; try done.
      left. by rewrite Hc.
  - eexists _, _. split; [reflexivity|]. cbn. split_and!; try done.
    + right. split_and!; try done. exists e. by rewrite last_snoc.
    + intros Hav. destruct (get_collection_ok E w Hav) as (w2 & Hg2 & _).
      rewrite Hg in Hg2. discriminate Hg2.
Qed.

(** The statistics with Jane Smith enrolled. *)
Lemma get_collection_stats_spec_witness :
  ∃ (stats : ChromaService.collection_stats) (w' : world),
    ChromaService.get_collection_stats Example.quiet More.calm
      Example.enrolled_world = (Ok stats, w')
    ∧ ChromaService.stats_status stats = py "healthy"
    ∧ ChromaService.total_embeddings stats = 1%nat.
Proof.
  destruct (get_collection_stats_spec Example.quiet More.calm
              Example.enrolled_world)
    as (stats & w' & Hrun & _ & _ & Hcases & Hhealthy).
  exists stats, w'. split; [exact Hrun|].
  assert (ChromaService.stats_status stats = py "healthy") as Hh
    by (apply Hhealthy; [by left|reflexivity]).
  split; [exact Hh|].
  destruct Hcases as [(_ & Hcount & _)|(Herr & _)].
  - rewrite Hcount. vm_compute. reflexivity.
  - rewrite Hh in Herr. discriminate Herr.
Defined.

(** X11: after a write that reported success, the statistics (when
    [count] does not raise) are healthy and count one entry more than
    there were if the id was free, and as many as there were if the id was
    stored already. *)
Theorem stats_count_after_add (E : env) (X : env_ext) (id : pystr)
    (embedding : list float) (metadata : gmap pystr pyvalue) (w w1 : world) :
  ChromaService.add_employee_embedding E id embedding metadata w
    = (Ok true, w1) →
  count_fault X = None →
  ∃ (stats : ChromaService.collection_stats) (w2 : world),
    ChromaService.get_collection_stats E X w1 = (Ok stats, w2)
    ∧ ChromaService.stats_status stats = py "healthy"
    ∧ ChromaService.total_embeddings stats
      = match collection w !! id with
        | Some _ => size (collection w)
        | None => S (size (collection w))
        end.
Proof.
  intros Hadd Hcount.
  pose proof (add_employee_embedding_caches E id embedding metadata w w1 Hadd)
    as Hcached.
  destruct (add_employee_embedding_spec E id embedding metadata w)
    as (b & w1' & Hadd' & _ & _ & _ & _ & Hc & _).
  rewrite Hadd in Hadd'. injection Hadd' as <- <-.
  destruct (get_collection_stats_cases E X w1)
    as (stats & w2 & Hrun & _ & Hcases & Hhealthy).
  exists stats, w2. split; [exact Hrun|].
  assert (ChromaService.stats_status stats = py "healthy") as Hh
    by (apply Hhealthy; [by left|done]).
  split; [exact Hh|].
  destruct Hcases as [(_ & ->)|(Herr & _)].
  - rewrite Hc. destruct (collection w !! id) eqn:Hid; [done|].
    by apply map_size_insert_None.
  - rewrite Hh in Herr. discriminate Herr.
Qed.

(** The first embedding written into the empty collection. *)
Lemma stats_count_after_add_witness :
  ∃ (stats : ChromaService.collection_stats) (w2 : world),
    ChromaService.get_collection_stats Example.quiet More.calm
      (ChromaService.add_employee_embedding Example.quiet Example.an_id
         [1; 0]%float jane_metadata Example.empty_world).2 = (Ok stats, w2)
    ∧ ChromaService.total_embeddings stats = 1%nat.
Proof.
  destruct (stats_count_after_add Example.quiet More.calm Example.an_id
              [1; 0]%float jane_metadata Example.empty_world
              (ChromaService.add_employee_embedding Example.quiet Example.an_id
                 [1; 0]%float jane_metadata Example.empty_world).2)
    as (stats & w2 & Hrun & _ & Hcount); [vm_compute; reflexivity|reflexivity|].
  exists stats, w2. split; [exact Hrun|]. rewrite Hcount. reflexivity.
Defined.

(** X12: the home page changes no store, and it fails only when
    [Employee.objects.count()] raises: the view then raises what the count
    raised.  Otherwise it shows the number of Employee rows and the
    statistics of the collection; in a state where the ids with a record
    are the ids with an embedding, healthy statistics show the same number
    as the Employee count. *)
Theorem home_counts (E : env) (X : env_ext) (req : request) (w : world) :
  ∃ w' : world,
    same_stores w w'
    ∧ match db_count_fault X with
      | Some e => Views.home E X req w = (Raise e, w')
      | None =>
          ∃ ctx : Views.home_context,
            Views.home E X req w = (Ok (py "home.html", ctx), w')
            ∧ Views.employee_count ctx = size (employees w)
            ∧ (stores_consistent w →
               ChromaService.stats_status (Views.chroma_stats ctx)
                 = py "healthy" →
               ChromaService.total_embeddings (Views.chroma_stats ctx)
               = Views.employee_count ctx)
            ∧ (ChromaService.stats_status (Views.chroma_stats ctx)
                 ≠ py "healthy" →
               ChromaService.total_embeddings (Views.chroma_stats ctx)
               = 0%nat)
      end.
Proof.
  unfold Views.home, Views.objects_count.
  destruct (get_collection_stats_cases E X w)
    as (stats & w' & Hrun & Hs & Hcases & _).
  unfold_M. rewrite Hrun. exists w'. split; [done|].
  destruct (db_count_fault X) as [e|]; [done|].
  eexists. split; [reflexivity|].
  pose proof Hs as (He & _). cbn. split_and!.
  - by rewrite He.
  - intros Hcons Hh. destruct Hcases as [(_ & ->)|(Herr & _)].
    + rewrite He. unfold stores_consistent in Hcons.
      by rewrite <- !size_dom, Hcons.
    + rewrite Hh in Herr. discriminate Herr.
  - intros Hnot. by destruct Hcases as [(Hh & _)|(_ & ->)].
Qed.

(** The home page with Jane Smith enrolled. *)
Lemma home_counts_witness :
  ∃ (ctx : Views.home_context) (w' : world),
    Views.home Example.quiet More.calm Example.post Example.enrolled_world
      = (Ok (py "home.html", ctx), w')
    ∧ ChromaService.total_embeddings (Views.chroma_stats ctx)
      = Views.employee_count ctx.
Proof.
  destruct (home_counts Example.quiet More.calm Example.post
              Example.enrolled_world)
    as (w' & _ & H).
  change (db_count_fault More.calm) with (@None exn) in H.
  destruct H as (ctx & Hrun & _ & Hagree & _).
  exists ctx, w'. split; [exact Hrun|]. apply Hagree.
  - vm_compute. reflexivity.
  - vm_compute in Hrun. injection Hrun as <- _. reflexivity.
Defined.

(* ===================================================================== *)
(** ** Verification: what it reads, and its two error pages *)
(* ===================================================================== *)

(** Whether and how extraction fails does not depend on the state; a
    failed extraction adds to the error log only. *)
Lemma extract_embedding_raise_any (E : env) (path : pystr) (w w' : world)
    (e : exn) :
  (FaceService.extract_embedding E path w).1 = Raise e →
  exn_class_of e = FaceRecognitionError
  ∧ ∃ w'', FaceService.extract_embedding E path w' = (Raise e, w'')
           ∧ same_stores w' w''.
Proof.
  unfold FaceService.extract_embedding. unfold_M.
  destruct (path_exists E path); simpl.
  - destruct (represent E path) as [[|f [|f' fs]]|e0]; simpl;
      try (destruct (normalize E (face_embedding f)) as [v'|e']; simpl);
      repeat case_bool_decide; simpl in *; try lia; try done;
      intros [= <-]; (split; [done|]); eexists; (split; [reflexivity|]);
      by unfold same_stores.
  - intros [= <-]. split; [done|]. eexists. split; [reflexivity|].
    by unfold same_stores.
Qed.

Lemma verify_after_search_records (E : env)
    (mr : option ChromaService.match_result) (w : world) :
  employees (Views.verify_after_search E mr w).2 = employees w
  ∧ collection (Views.verify_after_search E mr w).2 = collection w
  ∧ db_deletes (Views.verify_after_search E mr w).2 = db_deletes w.
Proof.
  unfold Views.verify_after_search, Views.objects_get. unfold_M.
  repeat case_match; by simplify_eq/=.
Qed.

Lemma verify_probe_records (E : env) (p : pystr) (w : world) :
  employees (Views.verify_probe E p w).2 = employees w
  ∧ collection (Views.verify_probe E p w).2 = collection w
  ∧ db_deletes (Views.verify_probe E p w).2 = db_deletes w.
Proof.
  unfold Views.verify_probe, Views.default_storage_delete,
    Views.default_storage_exists, FaceService.embedding_to_list.
  pose proof (extract_embedding_frame E (os_path_join (MEDIA_ROOT E) p) w)
    as (He1 & Hc1 & _ & _ & Hd1 & _).
  unfold_M.
  destruct (FaceService.extract_embedding E (os_path_join (MEDIA_ROOT E) p) w)
    as [[v|e] w1]; simpl in He1, Hc1, Hd1.
  - destruct (search_embedding_total E v w1)
      as (r & w2 & -> & (He2 & Hc2 & _ & _ & Hd2 & _)).
    destruct (storage_delete_fault E (storage_deletes w2)) as [e1|]; cbn.
    + case_bool_decide; cbn;
        [destruct (storage_delete_fault E _); cbn|];
        split_and!; congruence.
    + pose proof (verify_after_search_records E r
                    (count_storage_delete (set_files (λ fs, fs ∖ {[p]}) w2)))
        as (He3 & Hc3 & Hd3).
      destruct (Views.verify_after_search E r
                  (count_storage_delete (set_files (λ fs, fs ∖ {[p]}) w2)))
        as [res w3]; cbn in He3, Hc3, Hd3.
      case_bool_decide; cbn;
        [destruct (storage_delete_fault E _); cbn|];
        split_and!; congruence.
  - case_bool_decide; cbn;
      [destruct (storage_delete_fault E _); cbn|];
      split_and!; congruence.
Qed.

(** X13: verification only reads: whatever the request, the probe and the
    collaborators do, the view leaves the Employee table and the collection
    exactly as they were and deletes no record. *)
Theorem verify_employee_reads_only (E : env) (req : request) (w : world) :
  employees (Views.verify_employee E req w).2 = employees w
  ∧ collection (Views.verify_employee E req w).2 = collection w
  ∧ db_deletes (Views.verify_employee E req w).2 = db_deletes w.
Proof.
  unfold Views.verify_employee, Views.default_storage_save.
  destruct (method req); [by unfold_M|].
  destruct (form_is_valid req); [|by unfold_M].
  unfold_M.
  destruct (storage_save E (py "temp/" ++ upload_name req)) as [p|e]; simpl.
  - pose proof (verify_probe_records E p (set_files (λ fs, {[p]} ∪ fs) w))
      as (He & Hc & Hd).
    destruct (Views.verify_probe E p (set_files (λ fs, {[p]} ∪ fs) w))
      as [[[resp|]|e] w1]; simpl in He, Hc, Hd; simpl; try done.
    unfold Views.verify_employee_except. unfold_M.
    case_bool_decide; simpl; by split_and!.
  - unfold Views.verify_employee_except. unfold_M.
    case_bool_decide; simpl; by split_and!.
Qed.

(** X14: when no embedding can be extracted from the probe, the view
    returns its form page and flashes one error message.  When the storage
    can delete the temporary file, the message is the text of the
    extractor's exception and the file is removed; when the delete in the
    [finally] clause raises, its exception takes the place of the
    extractor's: the message is the one the view has for that exception,
    and the file stays. *)
Theorem verify_employee_extraction_failure (E : env) (req : request)
    (w : world) (p : pystr) (e : exn) :
  temp_acquired E req = Some p →
  (FaceService.extract_embedding E (os_path_join (MEDIA_ROOT E) p) w).1
    = Raise e →
  ∃ w' : world,
    Views.verify_employee E req w = (Ok verify_form_page, w')
    ∧ match storage_delete_fault E (storage_deletes w) with
      | None =>
          flashed w' = flashed w ++ [(MsgError, exn_str e)]
          ∧ files w' = files w ∖ {[p]}
      | Some e' =>
          flashed w' = flashed w ++ [(MsgError, verification_failure_text e')]
          ∧ files w' = {[p]} ∪ files w
      end.
Proof.
  unfold temp_acquired. intros Hacq Hext.
  destruct (method req) eqn:Hm; [done|].
  destruct (form_is_valid req) eqn:Hv; [|done].
  destruct (storage_save E (py "temp/" ++ upload_name req)) as [p'|] eqn:Hs;
    [|done].
  injection Hacq as ->.
  destruct (extract_embedding_raise_any E _ w
              (set_files (λ fs, {[p]} ∪ fs) w) e Hext)
    as (Hclass & w2 & Hrun & (_ & _ & Hfi & Hfl & _ & Hsd)).
  unfold Views.verify_employee, Views.verify_probe, Views.default_storage_save,
    Views.default_storage_delete, Views.default_storage_exists,
    Views.verify_employee_except, verification_failure_text.
  rewrite Hm, Hv. unfold_M. rewrite Hs. cbn [fst snd]. rewrite Hrun.
  simpl in Hfi, Hfl, Hsd.
  rewrite bool_decide_eq_true_2 by (rewrite Hfi; set_solver).
  rewrite Hsd.
  destruct (storage_delete_fault E (storage_deletes w)) as [e'|].
  - case_bool_decide; (eexists; split; [reflexivity|]); cbn;
      by rewrite Hfl, Hfi.
  - rewrite bool_decide_eq_true_2 by done.
    eexists. split; [reflexivity|]. cbn. rewrite Hfl, Hfi.
    split; [done|]. set_solver.
Qed.

(** A probe on which DeepFace finds no face. *)
Lemma verify_employee_extraction_failure_witness :
  ∃ w' : world,
    Views.verify_employee faceless Example.post Example.enrolled_world
      = (Ok verify_form_page, w')
    ∧ flashed w'
      = [(MsgError,
          py "No face detected in the image. Please provide a clear face photo.")].
Proof.
  destruct (verify_employee_extraction_failure faceless Example.post
              Example.enrolled_world (py "temp/probe.jpg")
              (FaceService.face_error
                 (py "No face detected in the image. Please provide a clear face photo.")))
    as (w' & Hrun & Hcase); [reflexivity..|].
  change (storage_delete_fault faceless
            (storage_deletes Example.enrolled_world))
    with (@None exn) in Hcase.
  exists w'. split; [exact Hrun | exact (proj1 Hcase)].
Defined.

(** X15: when the nearest candidate reaches the threshold but the Employee
    table has no record under its id (and the storage can delete the
    temporary file), the view reports no match and no employee: it logs the
    id, flashes that the record was not found and returns its form page. *)
Theorem verify_employee_record_missing (E : env) (req : request)
    (w w2 : world) (p : pystr) (v : list float)
    (mr : ChromaService.match_result) :
  temp_acquired E req = Some p →
  storage_delete_works E w →
  (FaceService.extract_embedding E (os_path_join (MEDIA_ROOT E) p) w).1 = Ok v →
  ChromaService.search_embedding E v (set_files (λ fs, {[p]} ∪ fs) w)
    = (Ok (Some mr), w2) →
  (SIMILARITY_THRESHOLD E <=? ChromaService.mr_similarity mr)%float = true →
  employees w !! ChromaService.mr_id mr = None →
  ∃ w' : world,
    Views.verify_employee E req w = (Ok verify_form_page, w')
    ∧ flashed w'
      = flashed w
        ++ [(MsgError,
             py "Match found in facial database but employee record not found.")]
    ∧ last (error_log w')
      = Some (LogError (py "Employee not found in database: "
                        ++ ChromaService.mr_id mr)).
Proof.
  unfold temp_acquired, storage_delete_works.
  intros Hacq Hdel Hext Hsearch Hthr Hnone.
  destruct (method req) eqn:Hm; [done|].
  destruct (form_is_valid req) eqn:Hv; [|done].
  destruct (storage_save E (py "temp/" ++ upload_name req)) as [p'|] eqn:Hs;
    [|done].
  injection Hacq as ->.
  destruct (search_embedding_total E v (set_files (λ fs, {[p]} ∪ fs) w))
    as (r & w2' & Hsearch' & (He & _ & _ & Hfl & _ & Hsd)).
  rewrite Hsearch in Hsearch'. injection Hsearch' as <- <-.
  simpl in He, Hfl, Hsd.
  unfold Views.verify_employee, Views.verify_probe, Views.default_storage_save,
    Views.default_storage_delete, Views.default_storage_exists,
    Views.verify_after_search, Views.objects_get,
    FaceService.embedding_to_list.
  rewrite Hm, Hv. unfold_M. rewrite Hs. cbn [fst snd].
  rewrite (extract_embedding_ok_any E _ w _ v Hext), Hsearch, Hthr.
  rewrite Hsd, Hdel.
  cbn. rewrite He, Hnone. cbn.
  rewrite bool_decide_eq_true_2 by done. cbn.
  rewrite bool_decide_eq_false_2 by set_solver.
  eexists. split; [reflexivity|]. cbn. rewrite Hfl, last_snoc. done.
Qed.

(** The nearest embedding belongs to nobody. *)
Lemma verify_employee_record_missing_witness :
  ∃ w' : world,
    Views.verify_employee near_jane Example.post orphan_world
      = (Ok verify_form_page, w')
    ∧ flashed w'
      = [(MsgError,
          py "Match found in facial database but employee record not found.")].
Proof.
  destruct (verify_employee_record_missing near_jane Example.post orphan_world
              (ChromaService.search_embedding near_jane [1; 0]%float
                 (set_files (λ fs, {[py "temp/probe.jpg"]} ∪ fs)
                    orphan_world)).2
              (py "temp/probe.jpg") [1; 0]%float
              (ChromaService.MatchResult Example.an_id 0.3
                 (1 - 0.3 / 2) ∅))
    as (w' & Hrun & Hflashed & _); [reflexivity..|].
  exists w'. split; [exact Hrun | exact Hflashed].
Defined.

(* ===================================================================== *)
(** ** Enrollment: when it succeeds, what it stores, what it says *)
(* ===================================================================== *)

Lemma get_collection_available_iff (E : env) (w : world) :
  (ChromaService._get_collection E w).1 = Ok () ↔ collection_available E w.
Proof.
  split.
  - unfold collection_available, ChromaService._get_collection,
      ChromaService._get_client. unfold_M.
    destruct (chroma_collection w); [by left|].
    destruct (chroma_client w); destruct (client_fault E);
      destruct (create_collection_fault E); cbn; try done;
      intros _; right; split; auto.
  - intros Hav. destruct (get_collection_ok E w Hav) as (w' & -> & _). done.
Qed.

(** On a free id the write reports success exactly when the collection is
    reachable and [collection.add] does not raise. *)
Lemma add_employee_embedding_true_iff (E : env) (id : pystr)
    (embedding : list float) (metadata : gmap pystr pyvalue) (w : world) :
  collection w !! id = None →
  (ChromaService.add_employee_embedding E id embedding metadata w).1 = Ok true
  ↔ collection_available E w ∧ add_fault E = None.
Proof.
  intros Hfree. rewrite <- get_collection_available_iff.
  unfold ChromaService.add_employee_embedding, ChromaService.collection_add.
  destruct (get_collection_cases E w)
    as [(w1 & Hg & (_ & Hc & _) & _)|(e & w1 & Hg & _)];
    unfold_M; rewrite Hg; cbn [fst snd].
  - rewrite Hc, Hfree. destruct (add_fault E); cbn; naive_solver.
  - cbn. naive_solver.
Qed.

(** The [try] statement of the enrollment view returns -- the redirect --
    exactly when extraction succeeds and the write reports success. *)
Lemma add_employee_saved_returns (E : env) (employee : Employee) (w w' : world)
    (resp : response) :
  try_except (Views.add_employee_saved E employee)
    (Views.add_employee_except E (Some employee)) w = (Ok (Some resp), w')
  ↔ ∃ v w1,
      (FaceService.extract_embedding E (image_path employee) w).1 = Ok v
      ∧ ChromaService.add_employee_embedding E (uuid employee) v
          (enrollment_metadata employee) w = (Ok true, w1)
      ∧ resp = Redirect (py "home")
      ∧ w' = add_flashed (MsgSuccess, success_message employee) w1.
Proof.
  unfold try_except, Views.add_employee_saved.
  unfold mbind at 1. unfold M_bind at 1.
  fold (enrollment_metadata employee). unfold FaceService.embedding_to_list.
  destruct (FaceService.extract_embedding E (image_path employee) w)
    as [[v|e] w0] eqn:Hext.
  - assert (w0 = w) as ->.
    { pose proof (extract_embedding_ok_any E (image_path employee) w w v) as H.
      rewrite Hext in H. specialize (H eq_refl). congruence. }
    unfold mbind at 1. unfold M_bind at 1.
    destruct (add_employee_embedding_spec E (uuid employee) v
                (enrollment_metadata employee) w)
      as (success & w1 & Hadd & _).
    rewrite Hadd. destruct success.
    + unfold_M. cbn. unfold success_message. split.
      * intros [= <- <-]. by exists v, w1.
      * intros (v' & w1' & Hv & Ha & -> & ->). cbn in Hv.
        injection Hv as <-. rewrite Hadd in Ha. by injection Ha as <-.
    + split.
      * intros H. exfalso.
        pose proof (employee_delete_cases E employee w1) as Hd.
        unfold mbind at 1 in H. unfold M_bind at 1 in H.
        destruct (Views.employee_delete E employee w1) as [[[]|e] w2].
        -- unfold_M. cbn in H. discriminate H.
        -- pose proof (add_employee_except_bound E employee e w2) as Hx.
           rewrite H in Hx. by destruct Hx as [? _].
      * intros (v' & w1' & Hv & Ha & _). cbn in Hv.
        injection Hv as <-. rewrite Hadd in Ha. discriminate Ha.
  - split.
    + intros H. exfalso.
      pose proof (add_employee_except_bound E employee e w0) as Hx.
      rewrite H in Hx. by destruct Hx as [? _].
    + intros (v' & w1' & Hv & _). cbn in Hv. discriminate Hv.
Qed.

(** The enrollment view once the form is valid, the photo is stored and
    the row is saved. *)
Lemma add_employee_posted (E : env) (req : request) (w : world)
    (photo : pystr) :
  method req = POST → form_is_valid req = true →
  photo_stored E (cleaned_data req) = Ok photo → db_save_fault E = None →
  Views.add_employee E req w
  = match try_except
            (Views.add_employee_saved E
               (new_employee E (cleaned_data req) photo))
            (Views.add_employee_except E
               (Some (new_employee E (cleaned_data req) photo)))
            (set_employees
               (insert (uuid4 E) (new_employee E (cleaned_data req) photo))
               (set_files (λ fs, {[photo]} ∪ fs) w)) with
    | (Ok (Some resp), w') => (Ok resp, w')
    | (Ok None, w') => (Ok add_form_page, w')
    | (Raise e, w') => (Raise e, w')
    end.
Proof.
  intros Hm Hv Hp Hs.
  unfold Views.add_employee, Views.try_except_bound.
  rewrite Hm, Hv. unfold mbind at 1. unfold M_bind at 1.
  rewrite form_save_cases, Hp, Hs.
  destruct (try_except _ _ _) as [[[resp|]|e] w']; reflexivity.
Qed.

(** The enrollment view when [form.save()] raises: no row is bound, the
    view flashes its message for the exception and returns the form
    page. *)
Lemma add_employee_save_failed (E : env) (req : request) (w w0 : world)
    (e : exn) :
  method req = POST → form_is_valid req = true →
  Views.form_save E (cleaned_data req) w = (Raise e, w0) →
  ∃ w', Views.add_employee E req w = (Ok add_form_page, w')
        ∧ flashed w'
          = flashed w0
            ++ [(MsgError,
                 if bool_decide (exn_class_of e = FaceRecognitionError)
                 then exn_str e
                 else py "An unexpected error occurred: " ++ exn_str e)].
Proof.
  intros Hm Hv Hsave.
  unfold Views.add_employee, Views.try_except_bound.
  rewrite Hm, Hv. unfold mbind at 1. unfold M_bind at 1. rewrite Hsave.
  unfold Views.add_employee_except, Views.delete_if_bound. unfold_M.
  case_bool_decide; by eexists.
Qed.

(** The redirect is the answer to a valid POST whose photo was stored and
    whose row was saved. *)
Lemma add_employee_redirect_inv (E : env) (req : request) (w : world) :
  (Views.add_employee E req w).1 = Ok (Redirect (py "home")) →
  method req = POST ∧ form_is_valid req = true
  ∧ (∃ photo, photo_stored E (cleaned_data req) = Ok photo)
  ∧ db_save_fault E = None.
Proof.
  destruct (method req) eqn:Hm.
  { unfold Views.add_employee. rewrite Hm. unfold_M. cbn. naive_solver. }
  destruct (form_is_valid req) eqn:Hv.
  2:{ unfold Views.add_employee. rewrite Hm, Hv. unfold_M. cbn. naive_solver. }
  pose proof (form_save_cases E (cleaned_data req) w) as Hsave.
  destruct (photo_stored E (cleaned_data req)) as [photo|e] eqn:Hp.
  - destruct (db_save_fault E) as [e|] eqn:Hs; [|by eauto].
    destruct (add_employee_save_failed E req w _ e Hm Hv Hsave)
      as (w' & -> & _). done.
  - destruct (add_employee_save_failed E req w _ e Hm Hv Hsave)
      as (w' & -> & _). done.
Qed.

(** X16: from consistent stores and with a fresh key, the enrollment view
    answers with the redirect exactly when the request is a POST with a
    valid form, the photo can be stored and the row saved, an embedding can
    be extracted from the stored photo, the collection is reachable and
    [collection.add] does not raise. *)
Theorem add_employee_succeeds_iff (E : env) (req : request) (w : world) :
  stores_consistent w →
  employees w !! uuid4 E = None →
  (Views.add_employee E req w).1 = Ok (Redirect (py "home"))
  ↔ method req = POST ∧ form_is_valid req = true ∧ db_save_fault E = None
    ∧ (∃ photo,
         photo_stored E (cleaned_data req) = Ok photo
         ∧ ∃ v, (FaceService.extract_embedding E
                   (image_path (new_employee E (cleaned_data req) photo))
                   w).1 = Ok v)
    ∧ collection_available E w ∧ add_fault E = None.
Proof.
  unfold stores_consistent. intros Hcons Hfresh.
  assert (collection w !! uuid4 E = None) as Hfree.
  { apply not_elem_of_dom. rewrite <- Hcons. by apply not_elem_of_dom. }
  pose proof (add_employee_embedding_true_iff E (uuid4 E)) as Hadd.
  split.
  - intros Hrun.
    destruct (add_employee_redirect_inv E req w Hrun)
      as (Hm & Hv & (photo & Hp) & Hs).
    rewrite (add_employee_posted E req w photo Hm Hv Hp Hs) in Hrun.
    set (employee := new_employee E (cleaned_data req) photo) in *.
    set (w1 := set_employees (insert (uuid4 E) employee)
                 (set_files (λ fs, {[photo]} ∪ fs) w)) in *.
    destruct (try_except _ _ w1) as [[[resp|]|e] w'] eqn:Htry;
      cbn in Hrun; try discriminate Hrun.
    injection Hrun as ->.
    apply (add_employee_saved_returns E employee w1) in Htry
      as (v & w2 & Hext & Hw2 & _).
    change (uuid employee) with (uuid4 E) in Hw2.
    split_and!; try done.
    + exists photo. split; [done|]. exists v. fold employee.
      by rewrite (extract_embedding_ok_any E _ w1 w v Hext).
    + apply (proj1 (Hadd v (enrollment_metadata employee) w1 Hfree)).
      by rewrite Hw2.
    + apply (proj1 (Hadd v (enrollment_metadata employee) w1 Hfree)).
      by rewrite Hw2.
  - intros (Hm & Hv & Hs & (photo & Hp & v & Hext) & Hav & Hfault).
    rewrite (add_employee_posted E req w photo Hm Hv Hp Hs).
    set (employee := new_employee E (cleaned_data req) photo) in *.
    set (w1 := set_employees (insert (uuid4 E) employee)
                 (set_files (λ fs, {[photo]} ∪ fs) w)).
    assert ((ChromaService.add_employee_embedding E (uuid4 E) v
               (enrollment_metadata employee) w1).1 = Ok true) as Hok
      by (by apply (Hadd v (enrollment_metadata employee) w1 Hfree)).
    destruct (ChromaService.add_employee_embedding E (uuid4 E) v
                (enrollment_metadata employee) w1) as [r w2] eqn:Hrun.
    cbn in Hok. subst r.
    rewrite (proj2 (add_employee_saved_returns E employee w1
                      (add_flashed (MsgSuccess, success_message employee) w2)
                      (Redirect (py "home")))); [done|].
    exists v, w2. split_and!; try done.
    by rewrite (extract_embedding_ok_any E _ w w1 v Hext).
Qed.

(** A complete enrollment into the empty stores. *)
Lemma add_employee_succeeds_iff_witness :
  (Views.add_employee Example.quiet Example.post Example.empty_world).1
  = Ok (Redirect (py "home")).
Proof.
  apply (add_employee_succeeds_iff Example.quiet Example.post
           Example.empty_world eq_refl eq_refl).
  split_and!; try reflexivity.
  - exists (py "employee_photos/jane.jpg"). split; [reflexivity|].
    by exists [1; 0]%float.
  - right. split; [right|]; reflexivity.
Defined.

(** X17: after the redirect, the Employee table has gained exactly the
    row of the form under the new key, the collection exactly one entry
    under that key -- the normalised embedding of the one face DeepFace
    found, with the sanitized name and employer and the score in its
    string form -- the success message is flashed, and the storage has
    gained the photo of the row, under the name the storage gave it, and
    no other file has come or gone. *)
Theorem add_employee_success_state (E : env) (req : request) (w w' : world) :
  stores_consistent w →
  employees w !! uuid4 E = None →
  Views.add_employee E req w = (Ok (Redirect (py "home")), w') →
  ∃ photo : pystr,
    photo_stored E (cleaned_data req) = Ok photo
    ∧ let employee := new_employee E (cleaned_data req) photo in
      employees w' = <[uuid4 E := employee]> (employees w)
      ∧ (∃ (f : face) (v : list float) (stored : gmap pystr pystr),
           represent E (image_path employee) = Ok [f]
           ∧ normalize E (face_embedding f) = Ok v
           ∧ collection w' = <[uuid4 E := (v, stored)]> (collection w)
           ∧ stored !! py "full_name"
             = Some (ChromaService.clean_value E (PStr (full_name employee)))
           ∧ stored !! py "employer"
             = Some (ChromaService.clean_value E
                       (PStr (employer_name employee)))
           ∧ stored !! py "reputation_score"
             = Some (float_str E (reputation_score employee))
           ∧ dom stored
             = {[ py "full_name"; py "employer"; py "reputation_score" ]})
      ∧ flashed w' = flashed w ++ [(MsgSuccess, success_message employee)]
      ∧ files w' = {[photo]} ∪ files w.
Proof.
  unfold stores_consistent. intros Hcons Hfresh Hrun.
  assert (collection w !! uuid4 E = None) as Hfree.
  { apply not_elem_of_dom. rewrite <- Hcons. by apply not_elem_of_dom. }
  pose proof (add_employee_redirect_inv E req w) as Hconds.
  rewrite Hrun in Hconds.
  destruct (Hconds eq_refl) as (Hm & Hv & (photo & Hp) & Hs).
  exists photo. split; [done|].
  rewrite (add_employee_posted E req w photo Hm Hv Hp Hs) in Hrun.
  set (employee := new_employee E (cleaned_data req) photo) in *.
  set (w1 := set_employees (insert (uuid4 E) employee)
               (set_files (λ fs, {[photo]} ∪ fs) w)) in *.
  destruct (try_except _ _ w1) as [[[resp|]|e] w''] eqn:Htry;
    try discriminate Hrun.
  injection Hrun as -> ->.
  apply (add_employee_saved_returns E employee w1) in Htry
    as (v & w2 & Hext & Hadd & _ & ->).
  destruct (add_employee_embedding_spec E (uuid4 E) v
              (enrollment_metadata employee) w1)
    as (b & w2' & Hadd' & He & Hfi & Hfl & _ & Hc & _).
  change (uuid employee) with (uuid4 E) in Hadd.
  rewrite Hadd in Hadd'. injection Hadd' as <- <-.
  change (collection w1) with (collection w) in Hc. rewrite Hfree in Hc.
  apply (extract_embedding_ok_inv E (image_path employee) w1 v) in Hext
    as (_ & f & Hrep & Hnorm).
  cbn. rewrite He, Hfi, Hfl, Hc. split_and!; try done.
  exists f, v, (ChromaService.clean_metadata E (enrollment_metadata employee)).
  split_and!; try done;
    try (rewrite clean_metadata_lookup; unfold enrollment_metadata;
         by simplify_map_eq).
Qed.

(** The record, the message and the photo of a complete enrollment. *)
Lemma add_employee_success_state_witness :
  employees (Views.add_employee Example.quiet Example.post
               Example.empty_world).2
  = <[Example.an_id := Example.jane_record]> ∅
  ∧ files (Views.add_employee Example.quiet Example.post
             Example.empty_world).2
    = {[ py "employee_photos/jane.jpg" ]} ∪ ∅.
Proof.
  destruct (add_employee_success_state Example.quiet Example.post
              Example.empty_world
              (Views.add_employee Example.quiet Example.post
                 Example.empty_world).2)
    as (photo & Hphoto & Hrecord & _ & _ & Hfiles);
    [reflexivity | reflexivity | vm_compute; reflexivity |].
  injection Hphoto as <-.
  split; [exact Hrecord | exact Hfiles].
Defined.

(** X18: what a failed enrollment tells the user, when the compensating
    delete works.  If [form.save()] raises -- the photo cannot be stored,
    or the row cannot be inserted -- the message is the unexpected-error
    text with the words of the exception; if no embedding can be extracted,
    it is the text of the extractor's exception; if the index write fails,
    it is the fixed try-again text.  In each case exactly one error message
    is flashed and the view returns its form page. *)
Theorem add_employee_failure_messages (E : env) (req : request) (w : world) :
  method req = POST → form_is_valid req = true →
  stores_consistent w → employees w !! uuid4 E = None →
  (∀ e, photo_stored E (cleaned_data req) = Raise e
        ∨ ((∃ photo, photo_stored E (cleaned_data req) = Ok photo)
           ∧ db_save_fault E = Some e) →
     exn_class_of e ≠ FaceRecognitionError →
     ∃ w', Views.add_employee E req w = (Ok add_form_page, w')
           ∧ flashed w'
             = flashed w
               ++ [(MsgError, py "An unexpected error occurred: " ++ exn_str e)])
  ∧ (∀ photo e, photo_stored E (cleaned_data req) = Ok photo →
       db_save_fault E = None →
       db_delete_fault E (db_deletes w) = None →
       (FaceService.extract_embedding E
          (image_path (new_employee E (cleaned_data req) photo)) w).1
         = Raise e →
       ∃ w', Views.add_employee E req w = (Ok add_form_page, w')
             ∧ flashed w' = flashed w ++ [(MsgError, exn_str e)])
  ∧ (∀ photo v, photo_stored E (cleaned_data req) = Ok photo →
       db_save_fault E = None →
       db_delete_fault E (db_deletes w) = None →
       (FaceService.extract_embedding E
          (image_path (new_employee E (cleaned_data req) photo)) w).1
         = Ok v →
       ¬ (collection_available E w ∧ add_fault E = None) →
       ∃ w', Views.add_employee E req w = (Ok add_form_page, w')
             ∧ flashed w'
               = flashed w
                 ++ [(MsgError,
                      py "Failed to store facial recognition data. Please try again.")]).
Proof.
  unfold stores_consistent. intros Hm Hv Hcons Hfresh.
  assert (collection w !! uuid4 E = None) as Hfree.
  { apply not_elem_of_dom. rewrite <- Hcons. by apply not_elem_of_dom. }
  split_and!.
  - intros e Hsave Hclass.
    pose proof (form_save_cases E (cleaned_data req) w) as Hcases.
    destruct Hsave as [Hp|[Hp Hs]].
    + rewrite Hp in Hcases.
      destruct (add_employee_save_failed E req w _ e Hm Hv Hcases)
        as (w' & Hrun & Hfl).
      exists w'. split; [done|].
      by rewrite Hfl, bool_decide_eq_false_2.
    + destruct Hp as [photo Hp]. rewrite Hp, Hs in Hcases.
      destruct (add_employee_save_failed E req w _ e Hm Hv Hcases)
        as (w' & Hrun & Hfl).
      exists w'. split; [done|].
      by rewrite Hfl, bool_decide_eq_false_2.
  - intros photo e Hp Hs Hdel Hext.
    rewrite (add_employee_posted E req w photo Hm Hv Hp Hs).
    set (employee := new_employee E (cleaned_data req) photo) in *.
    set (w1 := set_employees (insert (uuid4 E) employee)
                 (set_files (λ fs, {[photo]} ∪ fs) w)).
    destruct (extract_embedding_raise_any E (image_path employee) w w1 e Hext)
      as (Hclass & w2 & Hrun & (_ & _ & _ & Hfl & Hd & _)).
    unfold try_except, Views.add_employee_saved.
    unfold mbind at 1. unfold M_bind at 1. rewrite Hrun.
    unfold Views.add_employee_except, Views.delete_if_bound,
      Views.employee_delete.
    rewrite bool_decide_eq_true_2 by done. unfold_M.
    rewrite Hd. change (db_deletes w1) with (db_deletes w). rewrite Hdel.
    eexists. split; [reflexivity|]. cbn. by rewrite Hfl.
  - intros photo v Hp Hs Hdel Hext Hnot.
    rewrite (add_employee_posted E req w photo Hm Hv Hp Hs).
    set (employee := new_employee E (cleaned_data req) photo) in *.
    set (w1 := set_employees (insert (uuid4 E) employee)
                 (set_files (λ fs, {[photo]} ∪ fs) w)).
    destruct (add_employee_embedding_spec E (uuid4 E) v
                (enrollment_metadata employee) w1)
      as (b & w2 & Hadd & _ & _ & Hfl & Hd & _).
    assert (b = false) as ->.
    { destruct b; [|done]. exfalso. apply Hnot.
      apply (add_employee_embedding_true_iff E (uuid4 E) v
               (enrollment_metadata employee) w1 Hfree).
      by rewrite Hadd. }
    unfold try_except, Views.add_employee_saved.
    unfold mbind at 1. unfold M_bind at 1.
    rewrite (extract_embedding_ok_any E _ w w1 v Hext).
    fold (enrollment_metadata employee). unfold FaceService.embedding_to_list.
    unfold mbind at 1. unfold M_bind at 1.
    change (uuid employee) with (uuid4 E). rewrite Hadd.
    unfold Views.employee_delete. unfold_M.
    rewrite Hd. change (db_deletes w1) with (db_deletes w). rewrite Hdel.
    eexists. split; [reflexivity|]. cbn. by rewrite Hfl.
Qed.

(** Enrollment with a photo that shows no face. *)
Lemma add_employee_failure_messages_witness :
  ∃ w', Views.add_employee faceless Example.post Example.empty_world
          = (Ok add_form_page, w')
        ∧ flashed w'
          = [(MsgError,
              py "No face detected in the image. Please provide a clear face photo.")].
Proof.
  destruct (add_employee_failure_messages faceless Example.post
              Example.empty_world eq_refl eq_refl eq_refl eq_refl)
    as (_ & Hextract & _).
  apply (Hextract (py "employee_photos/jane.jpg")
    (FaceService.face_error
       (py "No face detected in the image. Please provide a clear face photo."))
    eq_refl eq_refl eq_refl eq_refl).
Defined.

(* ===================================================================== *)
(** ** Sanitizing twice *)
(* ===================================================================== *)

Section StripFacts.
Implicit Types (s r new : pystr) (c a old : N).

Lemma lstrip_head s c t : lstrip s = c :: t → isspace c = false.
Proof.
  induction s as [|a s IH]; simpl; [done|].
  destruct (isspace a) eqn:Ha; [done|]. by intros [= <- _].
Qed.

Lemma lstrip_fixed c t : isspace c = false → lstrip (c :: t) = c :: t.
Proof. intros H. simpl. by rewrite H. Qed.

Lemma lstrip_idem s : lstrip (lstrip s) = lstrip s.
Proof.
  destruct (lstrip s) as [|c t] eqn:H; [done|].
  apply lstrip_fixed. by apply (lstrip_head s c t).
Qed.

Lemma lstrip_app s r :
  lstrip (s ++ r)
  = match lstrip s with [] => lstrip r | c :: t => (c :: t) ++ r end.
Proof.
  induction s as [|a s IH]; simpl; [done|].
  destruct (isspace a); [done|done].
Qed.

Lemma rstrip_cons a s :
  rstrip (a :: s)
  = if decide (rstrip s = []) then (if isspace a then [] else [a])
    else a :: rstrip s.
Proof.
  unfold rstrip. rewrite reverse_cons, lstrip_app.
  destruct (lstrip (reverse s)) as [|c t] eqn:H.
  - rewrite reverse_nil, decide_True by done. simpl.
    by destruct (isspace a).
  - rewrite decide_False.
    + by rewrite reverse_snoc.
    + intros Hnil. apply (f_equal reverse) in Hnil.
      rewrite reverse_involutive in Hnil. discriminate Hnil.
Qed.

(** Stripping the two ends in either order gives the same string. *)
Lemma lstrip_rstrip s : lstrip (rstrip s) = rstrip (lstrip s).
Proof.
  induction s as [|a s IH]; [done|].
  rewrite rstrip_cons. simpl. destruct (isspace a) eqn:Ha.
  - case_decide as Hnil.
    + simpl. by rewrite <- IH, Hnil.
    + simpl. by rewrite Ha.
  - rewrite rstrip_cons. case_decide; simpl; by rewrite Ha.
Qed.

Lemma rstrip_idem s : rstrip (rstrip s) = rstrip s.
Proof. unfold rstrip. by rewrite reverse_involutive, lstrip_idem. Qed.

Lemma strip_idem s : strip (strip s) = strip s.
Proof.
  unfold strip. by rewrite lstrip_rstrip, lstrip_idem, rstrip_idem.
Qed.

Lemma replace1_absent old new s : old ∉ s → replace1 old new s = s.
Proof.
  induction s as [|a s IH]; simpl; [done|].
  intros Hnot. apply not_elem_of_cons in Hnot as [Hne Hs].
  destruct (N.eqb_spec a old) as [->|_]; [done|].
  simpl. by rewrite IH.
Qed.

(** A stripped string neither starts nor ends with white space. *)
Lemma strip_ends s :
  (∀ c, head (strip s) = Some c → isspace c = false)
  ∧ (∀ c, last (strip s) = Some c → isspace c = false).
Proof.
  split; intros c.
  - unfold strip. rewrite <- lstrip_rstrip.
    destruct (lstrip (rstrip s)) as [|c' t] eqn:H; [done|].
    intros [= <-]. by apply (lstrip_head (rstrip s) c' t).
  - unfold strip, rstrip. rewrite last_reverse.
    destruct (lstrip (reverse (lstrip s))) as [|c' t] eqn:H; [done|].
    intros [= <-]. by apply (lstrip_head (reverse (lstrip s)) c' t).
Qed.

End StripFacts.

(** X19: sanitizing is stable on strings: the cleaned form of a string
    has no white space at either end, and cleaning it again gives the same
    string; so a dictionary of strings that has been cleaned is not changed
    by cleaning it again, and cleaning keeps the keys. *)
Theorem clean_value_stable (E : env) (s : pystr)
    (strings : gmap pystr pystr) :
  let cleaned := ChromaService.clean_value E (PStr s) in
  ChromaService.clean_value E (PStr cleaned) = cleaned
  ∧ (∀ c, head cleaned = Some c → isspace c = false)
  ∧ (∀ c, last cleaned = Some c → isspace c = false)
  ∧ ChromaService.clean_metadata E
      (PStr <$> ChromaService.clean_metadata E (PStr <$> strings))
    = ChromaService.clean_metadata E (PStr <$> strings)
  ∧ dom (ChromaService.clean_metadata E (PStr <$> strings)) = dom strings.
Proof.
  assert (∀ t, ChromaService.clean_value E
                 (PStr (ChromaService.clean_value E (PStr t)))
               = ChromaService.clean_value E (PStr t)) as Hstable.
  { intros t.
    assert (∀ x, ChromaService.clean_value E (PStr x)
                 = strip (replace1 LF [SPACE]
                            (replace1 CR [] (replace1 NUL [] x)))) as Hstr
      by reflexivity.
    rewrite !Hstr.
    destruct (sanitized_ctrl_free t) as (H0 & H13 & H10).
    set (u := strip (replace1 LF [SPACE] (replace1 CR [] (replace1 NUL [] t))))
      in *.
    rewrite (replace1_absent NUL [] u H0), (replace1_absent CR [] u H13),
      (replace1_absent LF [SPACE] u H10).
    apply strip_idem. }
  intros cleaned. split_and!.
  - apply Hstable.
  - apply strip_ends.
  - apply strip_ends.
  - rewrite !clean_metadata_fmap, <- !map_fmap_compose.
    apply map_fmap_ext. intros key t _. cbn. apply Hstable.
  - by rewrite clean_metadata_fmap, !dom_fmap_L.
Qed.

(* ===================================================================== *)
(** ** Reputation labels *)
(* ===================================================================== *)

Lemma SFleb_trans (x y z : spec_float) :
  SFleb x y = true → SFleb y z = true → SFleb x z = true.
Proof.
  unfold SFleb.
  destruct x as [sx|sx| |sx mx ex], y as [sy|sy| |sy my ey],
    z as [sz|sz| |sz mz ez]; simpl;
    try destruct sx; try destruct sy; try destruct sz; simpl;
    try reflexivity; try discriminate; try (intros; assumption).
  all: change (PosDef.Pos.compare_cont Eq) with Pos.compare.
  all: destruct (Z.compare_spec ex ey); destruct (Z.compare_spec ey ez);
    destruct (Z.compare_spec ex ez); simpl; try reflexivity; try discriminate;
    try lia.
  all: destruct (Pos.compare_spec mx my); destruct (Pos.compare_spec my mz);
    destruct (Pos.compare_spec mx mz); simpl; try reflexivity;
    try discriminate; try lia.
Qed.

Lemma float_leb_trans (x y z : float) :
  (x <=? y)%float = true → (y <=? z)%float = true → (x <=? z)%float = true.
Proof. rewrite !leb_spec. apply SFleb_trans. Qed.

(** X20: the colour class always goes with the label: Excellent with
    success, Good with info, Average with warning, Poor with danger. *)
Theorem reputation_color_matches_display (employee : Employee) :
  (Models.get_reputation_display employee = py "Excellent"
   ∧ Models.get_reputation_color employee = py "success")
  ∨ (Models.get_reputation_display employee = py "Good"
     ∧ Models.get_reputation_color employee = py "info")
  ∨ (Models.get_reputation_display employee = py "Average"
     ∧ Models.get_reputation_color employee = py "warning")
  ∨ (Models.get_reputation_display employee = py "Poor"
     ∧ Models.get_reputation_color employee = py "danger").
Proof.
  unfold Models.get_reputation_display, Models.get_reputation_color.
  destruct (8 <=? reputation_score employee)%float; [by left|].
  destruct (6 <=? reputation_score employee)%float; [by right; left|].
  destruct (4 <=? reputation_score employee)%float;
    [by right; right; left|by right; right; right].
Qed.

(** X21: the labels are bands of the score: Excellent exactly from 8,
    Good exactly from 6 up to 8, Average exactly from 4 up to 6, and Poor
    exactly when the score does not reach 4 (which includes a score that
    is not a number). *)
Theorem reputation_display_bands (employee : Employee) :
  let s := reputation_score employee in
  (Models.get_reputation_display employee = py "Excellent"
   ↔ (8 <=? s)%float = true)
  ∧ (Models.get_reputation_display employee = py "Good"
     ↔ (6 <=? s)%float = true ∧ (8 <=? s)%float = false)
  ∧ (Models.get_reputation_display employee = py "Average"
     ↔ (4 <=? s)%float = true ∧ (6 <=? s)%float = false)
  ∧ (Models.get_reputation_display employee = py "Poor"
     ↔ (4 <=? s)%float = false).
Proof.
  intros s. unfold Models.get_reputation_display. fold s.
  pose proof (float_leb_trans 6 8 s eq_refl) as H68.
  pose proof (float_leb_trans 4 6 s eq_refl) as H46.
  destruct (8 <=? s)%float eqn:H8; destruct (6 <=? s)%float eqn:H6;
    destruct (4 <=? s)%float eqn:H4;
    try (specialize (H68 eq_refl)); try (specialize (H46 eq_refl));
    try discriminate; split_and!; split; try done; by intros [? ?].
Qed.

(** X22: a higher score never gets a lower label. *)
Theorem reputation_display_monotone (e1 e2 : Employee) :
  (reputation_score e1 <=? reputation_score e2)%float = true →
  (reputation_rank (Models.get_reputation_display e1)
   ≤ reputation_rank (Models.get_reputation_display e2))%nat.
Proof.
  intros Hle. unfold Models.get_reputation_display.
  pose proof (λ t H, float_leb_trans t _ _ H Hle) as Hup.
  destruct (8 <=? reputation_score e1)%float eqn:H81.
  { by rewrite (Hup 8%float H81). }
  destruct (6 <=? reputation_score e1)%float eqn:H61.
  { rewrite (Hup 6%float H61).
    destruct (8 <=? reputation_score e2)%float; vm_compute; lia. }
  destruct (4 <=? reputation_score e1)%float eqn:H41.
  { rewrite (Hup 4%float H41).
    destruct (8 <=? reputation_score e2)%float;
      destruct (6 <=? reputation_score e2)%float; vm_compute; lia. }
  change (reputation_rank (py "Poor")) with 0%nat. lia.
Qed.

(** Jane Smith, score 8, and a colleague with score 9.5. *)
Lemma reputation_display_monotone_witness :
  (reputation_rank (Models.get_reputation_display Example.jane_record)
   ≤ reputation_rank
       (Models.get_reputation_display
          (mkEmployee (py "7c9e6679-7425-40de-944b-e07fc1f90ae7")
             (py "Ada Park") (py "+1987654321") (py "ada@example.com")
             (py "Acme Corp") (py "Manager") 9.5%float None
             (py "/srv/media/employee_photos/ada.jpg"))))%nat.
Proof. apply reputation_display_monotone. reflexivity. Defined.

(* ===================================================================== *)
(** ** The upload validators *)
(* ===================================================================== *)

(** X23: [EmployeeForm.clean_image] returns the file, unchanged, exactly
    when there is one, it has a name, its size does not exceed
    [MAX_UPLOAD_SIZE] (a file of exactly that size passes) and its content
    type is one of the four allowed types; otherwise it raises a
    validation error. *)
Theorem employee_clean_image_accepts (E : env) (X : env_ext)
    (image : option uploaded_file) (f : uploaded_file) :
  Forms.employee_clean_image E X image = Cleaned f
  ↔ image = Some f ∧ file_name f ≠ []
    ∧ (file_size f ≤ MAX_UPLOAD_SIZE X)%Z
    ∧ content_type f ∈ Forms.allowed_types.
Proof.
  unfold Forms.employee_clean_image. destruct image as [g|].
  - case_bool_decide as Hname.
    { split; [done|]. intros ([= ->] & ? & _). done. }
    destruct (Z.ltb_spec (MAX_UPLOAD_SIZE X) (file_size g)) as [Hbig|Hok].
    { split; [done|]. intros ([= ->] & _ & ? & _). lia. }
    case_bool_decide as Htype; simpl.
    + split; [by intros [= ->]|]. by intros ([= ->] & _).
    + split; [done|]. intros ([= ->] & _ & _ & ?). done.
  - split; [done|]. by intros [? _].
Qed.

(** X24: enrollment and verification validate an upload alike: both
    return the file, or both raise, with the same message unless the file
    is missing, where each form has its own words. *)
Theorem clean_image_forms_agree (E : env) (X : env_ext)
    (image : option uploaded_file) :
  match Forms.employee_clean_image E X image,
        Forms.verification_clean_image E X image with
  | Cleaned f, Cleaned g => f = g ∧ image = Some f
  | ValidationError m1, ValidationError m2 =>
      m1 = m2
      ∨ (m1 = py "Please upload an employee photo."
         ∧ m2 = py "Please upload a photo for verification."
         ∧ (image = None ∨ ∃ f, image = Some f ∧ file_name f = []))
  | _, _ => False
  end.
Proof.
  unfold Forms.employee_clean_image, Forms.verification_clean_image.
  destruct image as [g|]; [|right; split_and!; try done; by left].
  case_bool_decide as Hname.
  { right. split_and!; try done. right. by exists g. }
  destruct (MAX_UPLOAD_SIZE X <? file_size g)%Z; [by left|].
  case_bool_decide; simpl; [done|by left].
Qed.

(* ===================================================================== *)
(** ** Verification: a candidate is found *)
(* ===================================================================== *)

(** X25: every match [search_embedding] returns is the first candidate of
    the query: its id and distance are the first of the first lists, its
    similarity is [1 - distance / 2], and no error was logged by the
    search. *)
Theorem search_embedding_match_is_first (E : env) (q : list float)
    (w w' : world) (mr : ChromaService.match_result) :
  ChromaService.search_embedding E q w = (Ok (Some mr), w') →
  ∃ rs : query_results,
    query E q = Ok rs
    ∧ head (ids rs) ≫= head = Some (ChromaService.mr_id mr)
    ∧ head (distances rs) ≫= head = Some (ChromaService.mr_distance mr)
    ∧ ChromaService.mr_similarity mr
      = (1 - ChromaService.mr_distance mr / 2)%float
    ∧ first_metadata rs = Some (ChromaService.mr_metadata mr)
    ∧ error_log w' = error_log w.
Proof.
  unfold ChromaService.search_embedding, ChromaService.collection_query,
    ChromaService.first_of_first, first_metadata.
  destruct (get_collection_cases E w)
    as [(w1 & Hg & _ & _ & Hlog)|(e & w1 & Hg & _)];
    unfold_M; rewrite Hg; [|intros ?; by simplify_eq].
  destruct (query E q) as [rs|e]; cbn; [|intros ?; by simplify_eq].
  destruct (ids rs) as [|[|id l] rest] eqn:Hi; cbn;
    try (intros ?; by simplify_eq).
  destruct (distances rs) as [|[|d ds] drest] eqn:Hd; cbn;
    try (intros ?; by simplify_eq).
  destruct (metadatas rs) as [[|[|m ms] mss]|] eqn:Hmd; cbn;
    try (intros ?; by simplify_eq);
    intros ?; simplify_eq; exists rs; rewrite Hi, Hd, Hmd; by split_and!.
Qed.

(** The candidate at distance 0.3. *)
Lemma search_embedding_match_is_first_witness :
  ∃ rs : query_results,
    query near_jane [1; 0]%float = Ok rs
    ∧ head (ids rs) ≫= head = Some Example.an_id.
Proof.
  destruct (search_embedding_match_is_first near_jane [1; 0]%float
              Example.enrolled_world
              (ChromaService.search_embedding near_jane [1; 0]%float
                 Example.enrolled_world).2
              (ChromaService.MatchResult Example.an_id 0.3 (1 - 0.3 / 2) ∅))
    as (rs & Hq & Hid & _); [reflexivity|].
  exists rs. split; [exact Hq | exact Hid].
Defined.

(** The view on a probe whose search returns a candidate, when the
    temporary file can be deleted. *)
Lemma verify_employee_search_some (E : env) (req : request) (w w2 : world)
    (p : pystr) (v : list float) (mr : ChromaService.match_result) :
  temp_acquired E req = Some p →
  storage_delete_works E w →
  (FaceService.extract_embedding E (os_path_join (MEDIA_ROOT E) p) w).1 = Ok v →
  ChromaService.search_embedding E v (set_files (λ fs, {[p]} ∪ fs) w)
    = (Ok (Some mr), w2) →
  Views.verify_employee E req w
  = match Views.verify_after_search E (Some mr)
            (count_storage_delete (set_files (λ fs, fs ∖ {[p]}) w2)) with
    | (Ok (Some resp), w3) => (Ok resp, w3)
    | (Ok None, w3) => (Ok verify_form_page, w3)
    | (Raise e, w3) =>
        match Views.verify_employee_except e w3 with
        | (Ok _, w4) => (Ok verify_form_page, w4)
        | (Raise e', w4) => (Raise e', w4)
        end
    end.
Proof.
  unfold temp_acquired, storage_delete_works. intros Hacq Hdel Hext Hsearch.
  destruct (method req) eqn:Hm; [done|].
  destruct (form_is_valid req) eqn:Hv; [|done].
  destruct (storage_save E (py "temp/" ++ upload_name req)) as [p'|] eqn:Hs;
    [|done].
  injection Hacq as ->.
  pose proof (search_embedding_storage_deletes E v _ w2 _ Hsearch) as Hn.
  cbn in Hn.
  pose proof (verify_after_search_files E (Some mr)
                (count_storage_delete (set_files (λ fs, fs ∖ {[p]}) w2)))
    as Hf.
  unfold Views.verify_employee, Views.verify_probe, Views.default_storage_save,
    Views.default_storage_delete, Views.default_storage_exists,
    FaceService.embedding_to_list.
  rewrite Hm, Hv. unfold_M. rewrite Hs. cbn [fst snd].
  rewrite (extract_embedding_ok_any E _ w _ v Hext), Hsearch.
  rewrite Hn, Hdel.
  destruct (Views.verify_after_search E (Some mr)
              (count_storage_delete (set_files (λ fs, fs ∖ {[p]}) w2)))
    as [res w3].
  simpl in Hf.
  rewrite bool_decide_eq_false_2 by (rewrite Hf; set_solver).
  destruct res as [[resp|]|e]; try reflexivity.
  destruct (verify_employee_except_files e w3) as (w4 & -> & _). done.
Qed.

(** X26: when an embedding is extracted (from a probe whose temporary
    file the storage can delete), the search returns a candidate and (if
    the candidate reaches the threshold) its record is in the table, the
    view returns the result page with the decision of the policy on the
    candidate's similarity: on a match the page carries the record of the
    candidate, the similarity and one hundred times it; no message is
    flashed. *)
Theorem verify_employee_decides (E : env) (req : request) (w w2 : world)
    (p : pystr) (v : list float) (mr : ChromaService.match_result) :
  temp_acquired E req = Some p →
  storage_delete_works E w →
  (FaceService.extract_embedding E (os_path_join (MEDIA_ROOT E) p) w).1 = Ok v →
  ChromaService.search_embedding E v (set_files (λ fs, {[p]} ∪ fs) w)
    = (Ok (Some mr), w2) →
  ((SIMILARITY_THRESHOLD E <=? ChromaService.mr_similarity mr)%float = true →
   is_Some (employees w !! ChromaService.mr_id mr)) →
  ∃ (ctx : context) (w' : world),
    Views.verify_employee E req w = (Ok (Render (py "result.html") ctx), w')
    ∧ decision_shown ctx
      = Some (decide_spec (ChromaService.mr_similarity mr)
                (SIMILARITY_THRESHOLD E))
    ∧ (ctx_match_found ctx = Some true →
       ctx_employee ctx = employees w !! ChromaService.mr_id mr)
    ∧ ctx_similarity ctx = Some (ChromaService.mr_similarity mr)
    ∧ ctx_similarity_percentage ctx
      = Some (ChromaService.mr_similarity mr * 100)%float
    ∧ flashed w' = flashed w.
Proof.
  intros Hacq Hdel Hext Hsearch Hrec.
  rewrite (verify_employee_search_some E req w w2 p v mr Hacq Hdel Hext
             Hsearch).
  destruct (search_embedding_total E v (set_files (λ fs, {[p]} ∪ fs) w))
    as (r & w2' & Hsearch' & (He & _ & _ & Hfl & _)).
  rewrite Hsearch in Hsearch'. injection Hsearch' as <- <-.
  simpl in He, Hfl.
  unfold Views.verify_after_search, Views.objects_get, decide_spec.
  unfold_M. cbn.
  destruct (SIMILARITY_THRESHOLD E <=? ChromaService.mr_similarity mr)%float
    eqn:Hts.
  - destruct (Hrec eq_refl) as [employee Hemp].
    assert (employees (count_storage_delete
                         (set_files (λ fs, fs ∖ {[p]}) w2))
            !! ChromaService.mr_id mr = Some employee) as ->
      by (cbn; by rewrite He).
    eexists _, _. split; [reflexivity|]. unfold decision_shown. cbn.
    destruct (0.8 <=? ChromaService.mr_similarity mr)%float; cbn;
      by split_and!.
  - eexists _, _. split; [reflexivity|]. by split_and!.
Qed.

(** Jane Smith in front of the camera: distance 0.3, similarity 0.85. *)
Lemma verify_employee_decides_witness :
  ∃ (ctx : context) (w' : world),
    Views.verify_employee near_jane Example.post Example.enrolled_world
      = (Ok (Render (py "result.html") ctx), w')
    ∧ decision_shown ctx = Some (Match High)
    ∧ ctx_employee ctx = Some Example.jane_record.
Proof.
  destruct (verify_employee_decides near_jane Example.post
              Example.enrolled_world
              (ChromaService.search_embedding near_jane [1; 0]%float
                 (set_files (λ fs, {[py "temp/probe.jpg"]} ∪ fs)
                    Example.enrolled_world)).2
              (py "temp/probe.jpg") [1; 0]%float
              (ChromaService.MatchResult Example.an_id 0.3 (1 - 0.3 / 2) ∅))
    as (ctx & w' & Hrun & Hshown & Hemp & _); [reflexivity..| |].
  - intros _. by exists Example.jane_record.
  - exists ctx, w'. split; [exact Hrun|]. split; [exact Hshown|].
    rewrite Hemp; [reflexivity|].
    vm_compute in Hrun. injection Hrun as <- _. reflexivity.
Defined.
